(** * Chunk containers of the manifest parser: header codec and chunk part resolver

    A shallow embedding of [src/objects/data/FChunkHeader.ts] (the header
    constructor and [load]) and of [src/objects/FileChunkPart.ts]
    ([loadData]), together with the properties of the specification that
    concern them.

    The TypeScript code mutates an archive cursor, reads and writes cache
    files, calls hash functions and throws.  All of this is threaded through
    one small monad: a state (the archive, or the file system), a log of the
    calls made to collaborators, and a result that is either a value or a
    thrown error. *)

From Stdlib Require Import ZArith NArith List String Ascii Bool Lia.
From Stdlib.Strings Require Import Byte.
From Stdlib Require Import DecimalString.
From stdpp Require Import gmap strings list.

Local Open Scope Z_scope.

Abbreviation bytes := (list byte).

(** ** Calls to collaborators

    Every call that leaves the two modelled classes for a collaborator whose
    work the specification talks about is recorded, in order. *)

Inductive event : Type :=
| EvArchiveRead (n : Z)                 (* ar.read(n): payload bytes taken from the archive *)
| EvInflate (input : bytes)             (* zlib.inflateSync(buf) *)
| EvRollingHash (buf : bytes)           (* FRollingHash.GetHashForDataSet(buf) *)
| EvSha1 (buf : bytes)                  (* crypto.createHash("sha1").update(buf).digest("hex") *)
| EvExists (path : string)              (* fs.existsSync(path) *)
| EvReadFile (path : string)            (* fs.readFileSync(path) *)
| EvWriteFile (path : string) (data : bytes)  (* fs.writeFileSync(path, data) *)
| EvRequest (uri : string).             (* request({ uri }) *)

Definition is_hash_event (e : event) : bool :=
  match e with
  | EvRollingHash _ | EvSha1 _ => true
  | _ => false
  end.

Definition is_request_event (e : event) : bool :=
  match e with
  | EvRequest _ => true
  | _ => false
  end.

(** ** The monad: state, call log, and thrown errors *)

Inductive Res (A : Type) : Type :=
| Ok (a : A)
| Throw (msg : string).
Arguments Ok {A} a.
Arguments Throw {A} msg.

Definition M (S A : Type) : Type := S -> list event -> Res A * S * list event.

Definition ret {S A} (a : A) : M S A := fun s log => (Ok a, s, log).

Definition bind {S A B} (m : M S A) (k : A -> M S B) : M S B :=
  fun s log =>
    match m s log with
    | (Ok a, s', log') => k a s' log'
    | (Throw e, s', log') => (Throw e, s', log')
    end.

Definition throw {S A} (msg : string) : M S A := fun s log => (Throw msg, s, log).

Definition emit {S} (e : event) : M S unit := fun s log => (Ok tt, s, log ++ [e]).

Definition get {S} : M S S := fun s log => (Ok s, s, log).

Definition put {S} (s : S) : M S unit := fun _ log => (Ok tt, s, log).

Declare Scope chunk_scope.
Delimit Scope chunk_scope with chunk.
Notation "x <- m ;; k" := (bind m (fun x => k))
  (at level 100, m at next level, right associativity) : chunk_scope.
Notation "m ;;; k" := (bind m (fun _ => k))
  (at level 100, right associativity) : chunk_scope.
Local Open Scope chunk_scope.

(** The value, final state and log of a run. *)
Definition result_of {S A} (r : Res A * S * list event) : Res A := fst (fst r).
Definition state_of {S A} (r : Res A * S * list event) : S := snd (fst r).
Definition log_of {S A} (r : Res A * S * list event) : list event := snd r.

(** ** Enumerations *)

Module EChunkHashFlags.
(** [src/enums/EChunkHashFlags.ts]. *)
Definition None : Z := 0x00.
Definition RollingPoly64 : Z := 0x01.
Definition Sha1 : Z := 0x02.
End EChunkHashFlags.

Module EChunkStorageFlags.
(** Modelled from the spec: [enums/EChunkStorageFlags] is not among the
    sources.  The specification describes [StorageFlags] as one byte of
    bit flags "none / compressed / encrypted"; they are given the first
    two bits, in that order. *)
Definition None : Z := 0x00.
Definition Compressed : Z := 0x01.
Definition Encrypted : Z := 0x02.
End EChunkStorageFlags.

Module EChunkVersion.
(** Modelled from the spec: [enums/EChunkVersion] is not among the
    sources.  The scenario of section 8 uses version 1 for the original
    layout; the SHA digest and the hash type are present from version 2 and
    the uncompressed size from version 3.  [Latest] is a field of [Env]. *)
Definition Original : Z := 1.
Definition StoresShaAndHashType : Z := 2.
Definition StoresDataSizeUncompressed : Z := 3.
End EChunkVersion.

Inductive EChunkLoadResult : Type :=
| Success
| CorruptHeader
| MissingHashInfo
| IncorrectFileSize
| UnsupportedStorage
| DecompressFailure
| HashCheckFailed.

(** [EChunkLoadResult[status]]: the name of an enumeration member. *)
Definition EChunkLoadResult_name (r : EChunkLoadResult) : string :=
  match r with
  | Success => "Success"
  | CorruptHeader => "CorruptHeader"
  | MissingHashInfo => "MissingHashInfo"
  | IncorrectFileSize => "IncorrectFileSize"
  | UnsupportedStorage => "UnsupportedStorage"
  | DecompressFailure => "DecompressFailure"
  | HashCheckFailed => "HashCheckFailed"
  end.

(** ** Collaborators

    The rolling hash, SHA-1, zlib, the hexadecimal formatter, [path.join],
    the HTTP transport and the table of header sizes are imported by the two
    source files and are not part of them.  They are the fields of [Env]; of
    the table only the three entries that the field widths of section 3 of
    the specification determine are fixed. *)

Class Env : Type := {
  (** [FRollingHash.GetHashForDataSet(buf)], a 64-bit value. *)
  GetHashForDataSet : bytes -> Z;
  (** [crypto.createHash("sha1").update(buf).digest("hex").toUpperCase()]. *)
  sha1_hex_upper : bytes -> string;
  (** [zlib.inflateSync(buf)]; [None] when zlib throws on its input. *)
  inflateSync : bytes -> option bytes;
  (** [toHex(value)] of [misc/HexUtils]. *)
  toHex : Z -> string;
  (** [FSHAHash.toString()] on the twenty digest bytes. *)
  FSHAHash_toString : bytes -> string;
  (** [path.join(dir, name)]. *)
  join : string -> string -> string;
  (** [request({ uri })]: status and body; [None] when the promise rejects. *)
  request : string -> option (Z * bytes);
  (** [EChunkVersion.Latest]. *)
  EChunkVersion_Latest : Z;
  (** [ChunkHeaderVersionSizes[version]]. *)
  ChunkHeaderVersionSizes : Z -> Z;
  sizes_Original :
    ChunkHeaderVersionSizes EChunkVersion.Original = 41;
  sizes_StoresShaAndHashType :
    ChunkHeaderVersionSizes EChunkVersion.StoresShaAndHashType = 62;
  sizes_StoresDataSizeUncompressed :
    ChunkHeaderVersionSizes EChunkVersion.StoresDataSizeUncompressed = 66;
}.

(** ** Buffers *)

Definition zero_byte : byte := Byte.x00.

(** Little-endian value of a run of bytes. *)
Fixpoint le_to_Z (bs : bytes) : Z :=
  match bs with
  | [] => 0
  | b :: rest => Z.of_N (Byte.to_N b) + 256 * le_to_Z rest
  end.

(** Node's [Buffer].  The messages of the errors that the platform throws
    are shortened; its upper limit on the length of a buffer is not
    modelled. *)

(** [Buffer.alloc(size)]: zero-filled; a negative size is a range error. *)
Definition Buffer_alloc {S} (size : Z) : M S bytes :=
  if size <? 0 then throw "RangeError: The value of 'size' is out of range"
  else ret (replicate (Z.to_nat size) zero_byte).

(** [source.copy(target, targetStart, sourceStart, sourceEnd)], returning the
    new content of [target].  As in Node's [lib/buffer.js]: a negative
    offset and a [sourceStart] greater than the length of the source are
    range errors ([ERR_OUT_OF_RANGE]); nothing is copied when the target
    start is past the target or the window is empty; otherwise the copied
    run is cut to the room left in the target and to the bytes left in the
    source. *)
Definition Buffer_copy {S} (source target : bytes)
    (targetStart sourceStart sourceEnd : Z) : M S bytes :=
  if targetStart <? 0 then
    throw "RangeError: The value of 'targetStart' is out of range"
  else if (sourceStart <? 0) || (Z.of_nat (length source) <? sourceStart) then
    throw "RangeError: The value of 'sourceStart' is out of range"
  else if sourceEnd <? 0 then
    throw "RangeError: The value of 'sourceEnd' is out of range"
  else if (Z.of_nat (length target) <=? targetStart) || (sourceEnd <=? sourceStart) then
    ret target
  else
    let room := Z.of_nat (length target) - targetStart in
    let sourceEnd := if room <? sourceEnd - sourceStart
                     then sourceStart + room else sourceEnd in
    let nb := sourceEnd - sourceStart in
    let sourceLen := Z.of_nat (length source) - sourceStart in
    let nb := if sourceLen <? nb then sourceLen else nb in
    let piece := take (Z.to_nat nb) (drop (Z.to_nat sourceStart) source) in
    ret (take (Z.to_nat targetStart) target ++ piece
         ++ drop (Z.to_nat targetStart + length piece) target).

(** The bytes that [copy] moves when it writes from position 0 of the
    target: those of the source window that exist and fit. *)
Definition copied_window (source target : bytes) (sourceStart sourceEnd : Z) : bytes :=
  take (Z.to_nat (Z.min (sourceEnd - sourceStart) (Z.of_nat (length target))))
       (drop (Z.to_nat sourceStart) source).

(** ** FArchive *)

(** Modelled from the spec: [misc/FArchive] is not among the sources; the
    specification calls it "the low-level cursor abstraction used to
    read/seek typed values from a byte buffer".  It is a buffer and a cursor:
    [tell] returns the cursor, [seek] sets it, [skip] moves it, typed reads
    are little-endian and advance it by their width, and a read that would
    pass the end of the buffer throws, as the readers of [Buffer] do. *)
Record FArchive : Type := {
  ar_data : bytes;
  ar_offset : N;
}.

Definition FArchive_new (data : bytes) : FArchive :=
  {| ar_data := data; ar_offset := 0%N |}.

Module Ar.
Definition tell : M FArchive Z :=
  fun ar log => (Ok (Z.of_N (ar_offset ar)), ar, log).

Definition size : M FArchive Z :=
  fun ar log => (Ok (Z.of_nat (length (ar_data ar))), ar, log).

Definition seek (pos : Z) : M FArchive unit :=
  fun ar log => (Ok tt, {| ar_data := ar_data ar; ar_offset := Z.to_N pos |}, log).

Definition skip (n : Z) : M FArchive unit :=
  fun ar log =>
    (Ok tt, {| ar_data := ar_data ar; ar_offset := Z.to_N (Z.of_N (ar_offset ar) + n) |}, log).

(** The next [n] bytes, the cursor moved past them. *)
Definition take_bytes (n : Z) : M FArchive bytes :=
  fun ar log =>
    if (n <? 0) || (Z.of_nat (length (ar_data ar)) <? Z.of_N (ar_offset ar) + n) then
      (Throw "RangeError: Attempt to access memory outside buffer bounds", ar, log)
    else
      (Ok (take (Z.to_nat n) (drop (N.to_nat (ar_offset ar)) (ar_data ar))),
       {| ar_data := ar_data ar; ar_offset := Z.to_N (Z.of_N (ar_offset ar) + n) |}, log).

Definition readUInt8 : M FArchive Z := b <- take_bytes 1 ;; ret (le_to_Z b).
Definition readUInt32 : M FArchive Z := b <- take_bytes 4 ;; ret (le_to_Z b).
Definition readUInt64 : M FArchive Z := b <- take_bytes 8 ;; ret (le_to_Z b).

(** [ar.read(n)]: a buffer holding the next [n] bytes. *)
Definition read (n : Z) : M FArchive bytes :=
  emit (EvArchiveRead n) ;;; take_bytes n.
End Ar.

(** ** FGuid and FSHAHash *)

(** Modelled from the spec: [misc/FGuid] is not among the sources.  A GUID is
    "an opaque 128-bit identifier", sixteen bytes on the wire, valid when it
    is not zero; [new FGuid()] is the zero GUID. *)
Definition FGuid : Type := bytes.
Definition FGuid_zero : FGuid := replicate 16 zero_byte.
Definition FGuid_read : M FArchive FGuid := Ar.take_bytes 16.
Definition FGuid_isValid (g : FGuid) : bool :=
  negb (forallb (fun b => N.eqb (Byte.to_N b) 0) g).

(** Modelled from the spec: [misc/FSHAHash] is not among the sources.  The
    digest is twenty bytes on the wire ([FSHAHash.SIZE]); [new FSHAHash()] is
    the zero digest. *)
Definition FSHAHash : Type := bytes.
Definition FSHAHash_SIZE : Z := 20.
Definition FSHAHash_zero : FSHAHash := replicate 20 zero_byte.
Definition FSHAHash_read : M FArchive FSHAHash := Ar.take_bytes FSHAHash_SIZE.

(** ** FChunkHeader *)

Module FChunkHeader.

(** The chunk header magic codeword. *)
Definition MAGIC : Z := 0xB1FE3AA2.

(** The fields of the class.  [Guid] and [SHAHash] are declared without an
    initialiser: they are [undefined] ([None]) until assigned. *)
Record t : Type := mk {
  Version : Z;
  HeaderSize : Z;
  Guid : option FGuid;
  DataSizeCompressed : Z;
  DataSizeUncompressed : Z;
  StoredAs : Z;
  HashType : Z;
  RollingHash : Z;
  SHAHash : option FSHAHash;
}.

Definition set_Version (v : Z) (h : t) : t :=
  mk v (HeaderSize h) (Guid h) (DataSizeCompressed h) (DataSizeUncompressed h)
     (StoredAs h) (HashType h) (RollingHash h) (SHAHash h).
Definition set_HeaderSize (v : Z) (h : t) : t :=
  mk (Version h) v (Guid h) (DataSizeCompressed h) (DataSizeUncompressed h)
     (StoredAs h) (HashType h) (RollingHash h) (SHAHash h).
Definition set_Guid (v : FGuid) (h : t) : t :=
  mk (Version h) (HeaderSize h) (Some v) (DataSizeCompressed h) (DataSizeUncompressed h)
     (StoredAs h) (HashType h) (RollingHash h) (SHAHash h).
Definition set_DataSizeCompressed (v : Z) (h : t) : t :=
  mk (Version h) (HeaderSize h) (Guid h) v (DataSizeUncompressed h)
     (StoredAs h) (HashType h) (RollingHash h) (SHAHash h).
Definition set_DataSizeUncompressed (v : Z) (h : t) : t :=
  mk (Version h) (HeaderSize h) (Guid h) (DataSizeCompressed h) v
     (StoredAs h) (HashType h) (RollingHash h) (SHAHash h).
Definition set_StoredAs (v : Z) (h : t) : t :=
  mk (Version h) (HeaderSize h) (Guid h) (DataSizeCompressed h) (DataSizeUncompressed h)
     v (HashType h) (RollingHash h) (SHAHash h).
Definition set_HashType (v : Z) (h : t) : t :=
  mk (Version h) (HeaderSize h) (Guid h) (DataSizeCompressed h) (DataSizeUncompressed h)
     (StoredAs h) v (RollingHash h) (SHAHash h).
Definition set_RollingHash (v : Z) (h : t) : t :=
  mk (Version h) (HeaderSize h) (Guid h) (DataSizeCompressed h) (DataSizeUncompressed h)
     (StoredAs h) (HashType h) v (SHAHash h).
Definition set_SHAHash (v : FSHAHash) (h : t) : t :=
  mk (Version h) (HeaderSize h) (Guid h) (DataSizeCompressed h) (DataSizeUncompressed h)
     (StoredAs h) (HashType h) (RollingHash h) (Some v).

Section WithEnv.
Context `{Env}.

(** The field initialisers, run before the constructor body. *)
Definition initial : t :=
  {| Version := EChunkVersion_Latest;
     HeaderSize := ChunkHeaderVersionSizes EChunkVersion_Latest;
     Guid := None;
     DataSizeCompressed := 0;
     DataSizeUncompressed := 1024 * 1024;
     StoredAs := EChunkStorageFlags.None;
     HashType := EChunkHashFlags.RollingPoly64;
     RollingHash := 0;
     SHAHash := None |}.

(** The values the [else] branch at the end of the constructor assigns
    to the nine fields. *)
Definition zeroed : t :=
  {| Version := EChunkVersion_Latest;
     HeaderSize := ChunkHeaderVersionSizes EChunkVersion_Latest;
     Guid := Some FGuid_zero;
     DataSizeCompressed := 0;
     DataSizeUncompressed := 1024 * 1024;
     StoredAs := EChunkStorageFlags.None;
     HashType := EChunkHashFlags.RollingPoly64;
     RollingHash := 0;
     SHAHash := Some FSHAHash_zero |}.

(** The version 2 block of the constructor (lines 66 to 79). *)
Definition read_v2 (lazy : bool) (sizeLeft : Z)
    (st : t * bool * Z) : M FArchive (t * bool * Z) :=
  let '(this, bSuccess, expectedBytes) := st in
  if bSuccess && (Version this >=? EChunkVersion.StoresShaAndHashType) then
    let bSuccess :=
      sizeLeft >=? ChunkHeaderVersionSizes EChunkVersion.StoresShaAndHashType in
    this <-
      (if bSuccess then
         if lazy then
           Ar.skip FSHAHash_SIZE ;;;
           Ar.skip 1 ;;;
           ret this
         else
           sha <- FSHAHash_read ;;
           let this := set_SHAHash sha this in
           ht <- Ar.readUInt8 ;;
           ret (set_HashType ht this)
       else ret this) ;;
    ret (this, bSuccess, ChunkHeaderVersionSizes EChunkVersion.StoresShaAndHashType)
  else ret st.

(** The version 3 block of the constructor (lines 82 to 88). *)
Definition read_v3 (sizeLeft : Z)
    (st : t * bool * Z) : M FArchive (t * bool * Z) :=
  let '(this, bSuccess, expectedBytes) := st in
  if bSuccess && (Version this >=? EChunkVersion.StoresDataSizeUncompressed) then
    let bSuccess :=
      sizeLeft >=? ChunkHeaderVersionSizes EChunkVersion.StoresDataSizeUncompressed in
    this <-
      (if bSuccess then
         v <- Ar.readUInt32 ;;
         ret (set_DataSizeUncompressed v this)
       else ret this) ;;
    ret (this, bSuccess, ChunkHeaderVersionSizes EChunkVersion.StoresDataSizeUncompressed)
  else ret st.

(** [new FChunkHeader(ar, lazy)].  The object is returned together with
    the final value of the local [bSuccess], which the constructor itself
    does not return: it tells which of its last two branches ran. *)
Definition new (lazy : bool) : M FArchive (t * bool) :=
  let this := initial in
  startPos <- Ar.tell ;;
  size <- Ar.size ;;
  let sizeLeft := size - startPos in
  let expectedBytes := 0 in
  let bSuccess := sizeLeft >=? ChunkHeaderVersionSizes EChunkVersion.Original in
  st <-
    (if bSuccess then
       magic <- Ar.readUInt32 ;;
       v <- Ar.readUInt32 ;;
       let this := set_Version v this in
       v <- Ar.readUInt32 ;;
       let this := set_HeaderSize v this in
       v <- Ar.readUInt32 ;;
       let this := set_DataSizeCompressed v this in
       g <- FGuid_read ;;
       let this := set_Guid g this in
       this <-
         (if lazy then
            Ar.skip 8 ;;; ret this
          else
            v <- Ar.readUInt64 ;;
            ret (set_RollingHash v this)) ;;
       v <- Ar.readUInt8 ;;
       let this := set_StoredAs v this in
       let bSuccess := magic =? MAGIC in
       let expectedBytes := ChunkHeaderVersionSizes EChunkVersion.Original in
       st <- read_v2 lazy sizeLeft (this, bSuccess, expectedBytes) ;;
       read_v3 sizeLeft st
     else ret (this, bSuccess, expectedBytes)) ;;
  let '(this, bSuccess, expectedBytes) := st in
  pos <- Ar.tell ;;
  let bSuccess := bSuccess && (pos - startPos =? expectedBytes) in
  if bSuccess then
    Ar.seek (startPos + HeaderSize this) ;;;
    ret (this, true)
  else
    let this := set_Version EChunkVersion_Latest this in
    let this := set_HeaderSize (ChunkHeaderVersionSizes EChunkVersion_Latest) this in
    let this := set_Guid FGuid_zero this in
    let this := set_DataSizeCompressed 0 this in
    let this := set_DataSizeUncompressed (1024 * 1024) this in
    let this := set_StoredAs EChunkStorageFlags.None this in
    let this := set_HashType EChunkHashFlags.RollingPoly64 this in
    let this := set_RollingHash 0 this in
    let this := set_SHAHash FSHAHash_zero this in
    ret (this, false).

(** [FRollingHash.GetHashForDataSet(buf)], logged. *)
Definition rolling_hash {S} (buf : bytes) : M S Z :=
  emit (EvRollingHash buf) ;;; ret (GetHashForDataSet buf).

(** [crypto.createHash("sha1").update(buf).digest("hex").toUpperCase()],
    logged. *)
Definition sha1 {S} (buf : bytes) : M S string :=
  emit (EvSha1 buf) ;;; ret (sha1_hex_upper buf).

(** [zlib.inflateSync(buf)], logged. *)
Definition inflate {S} (buf : bytes) : M S bytes :=
  emit (EvInflate buf) ;;;
  match inflateSync buf with
  | Some data => ret data
  | None => throw "Error: incorrect header check"
  end.

(** [load], from line 142 on: the SHA-1 check and the final return. *)
Definition load_sha (this : t) (buf : bytes)
    : M FArchive (EChunkLoadResult * option bytes) :=
  if Z.land (HashType this) EChunkHashFlags.Sha1 =? EChunkHashFlags.Sha1 then
    sha <- sha1 buf ;;
    match SHAHash this with
    | None => throw "TypeError: Cannot read properties of undefined (reading 'toString')"
    | Some digest =>
        if negb (String.eqb sha (FSHAHash_toString digest))
        then ret (HashCheckFailed, None)
        else ret (Success, Some buf)
    end
  else ret (Success, Some buf).

(** [load], from line 136 on: the verification block and what follows. *)
Definition load_verify (this : t) (lazy : bool) (buf : bytes)
    : M FArchive (EChunkLoadResult * option bytes) :=
  if negb lazy then
    if Z.land (HashType this) EChunkHashFlags.RollingPoly64
       =? EChunkHashFlags.RollingPoly64 then
      hash <- rolling_hash buf ;;
      if negb (String.eqb (toHex hash) (toHex (RollingHash this)))
      then ret (HashCheckFailed, None)
      else load_sha this buf
    else load_sha this buf
  else ret (Success, Some buf).

(** [load], lines 128 to 133: the decompression.  [inl r] is an early
    [return [r, null]]; [inr buf] goes on to the verification block with
    [buf]. *)
Definition load_decompress (this : t) (buf : bytes)
    : M FArchive (EChunkLoadResult + bytes) :=
  if Z.land (StoredAs this) EChunkStorageFlags.Compressed
     =? EChunkStorageFlags.Compressed then
    data <- inflate buf ;;
    if negb (Z.of_nat (length data) =? DataSizeUncompressed this)
    then ret (inl DecompressFailure)
    else
      buf <- Buffer_alloc (DataSizeUncompressed this) ;;
      buf <- Buffer_copy data buf 0 0 (Z.of_nat (length data)) ;;
      ret (inr buf)
  else ret (inr buf).

(** [load], lines 113 to 133: the four guards, the read and the
    decompression. *)
Definition load_payload (this : t) (lazy : bool)
    : M FArchive (EChunkLoadResult + bytes) :=
  match Guid this with
  | None => throw "TypeError: Cannot read properties of undefined (reading 'isValid')"
  | Some guid =>
      if negb (FGuid_isValid guid) then ret (inl CorruptHeader)
      else if negb lazy && (HashType this =? EChunkHashFlags.None)
      then ret (inl MissingHashInfo)
      else
        startPos <- Ar.tell ;;
        size <- Ar.size ;;
        let sizeLeft := size - startPos in
        if DataSizeCompressed this >? sizeLeft then ret (inl IncorrectFileSize)
        else if Z.land (StoredAs this) EChunkStorageFlags.Encrypted
                =? EChunkStorageFlags.Encrypted
        then ret (inl UnsupportedStorage)
        else
          buf <- Ar.read (DataSizeCompressed this) ;;
          load_decompress this buf
  end.

(** [load(ar, lazy)]. *)
Definition load (this : t) (lazy : bool)
    : M FArchive (EChunkLoadResult * option bytes) :=
  r <- load_payload this lazy ;;
  match r with
  | inl status => ret (status, None)
  | inr buf => load_verify this lazy buf
  end.

End WithEnv.
End FChunkHeader.

(** ** The header layout, stated on the bytes

    What the constructor computes, written directly as a function of the
    bytes at the cursor.  [FChunkHeader.new] is proved to agree with it. *)

(** The archive with its cursor moved [n] bytes further. *)
Definition advance (ar : FArchive) (n : Z) : FArchive :=
  {| ar_data := ar_data ar; ar_offset := Z.to_N (Z.of_N (ar_offset ar) + n) |}.

(** The [n] bytes found [p] bytes after the cursor. *)
Definition slice_at (ar : FArchive) (p n : Z) : bytes :=
  take (Z.to_nat n) (drop (N.to_nat (ar_offset ar) + Z.to_nat p) (ar_data ar)).

Definition size_left (ar : FArchive) : Z :=
  Z.of_nat (length (ar_data ar)) - Z.of_N (ar_offset ar).

Module Layout.
Definition magic (ar : FArchive) : Z := le_to_Z (slice_at ar 0 4).
Definition version (ar : FArchive) : Z := le_to_Z (slice_at ar 4 4).
Definition header_size (ar : FArchive) : Z := le_to_Z (slice_at ar 8 4).
Definition data_size_compressed (ar : FArchive) : Z := le_to_Z (slice_at ar 12 4).
Definition guid (ar : FArchive) : bytes := slice_at ar 16 16.
Definition rolling_hash (ar : FArchive) : Z := le_to_Z (slice_at ar 32 8).
Definition stored_as (ar : FArchive) : Z := le_to_Z (slice_at ar 40 1).
Definition sha_hash (ar : FArchive) : bytes := slice_at ar 41 20.
Definition hash_type (ar : FArchive) : Z := le_to_Z (slice_at ar 61 1).
Definition data_size_uncompressed (ar : FArchive) : Z := le_to_Z (slice_at ar 62 4).

(** The header is accepted: enough bytes for version 1, the magic
    codeword, and enough bytes for the field sets of the declared
    version. *)
Definition accepted (ar : FArchive) : bool :=
  (41 <=? size_left ar)
  && (magic ar =? FChunkHeader.MAGIC)
  && ((version ar <? 2) || (62 <=? size_left ar))
  && ((version ar <? 3) || (66 <=? size_left ar)).

(** The fields of an accepted header. *)
Definition fields `{Env} (lazy : bool) (ar : FArchive) : FChunkHeader.t :=
  {| FChunkHeader.Version := version ar;
     FChunkHeader.HeaderSize := header_size ar;
     FChunkHeader.Guid := Some (guid ar);
     FChunkHeader.DataSizeCompressed := data_size_compressed ar;
     FChunkHeader.DataSizeUncompressed :=
       if 3 <=? version ar then data_size_uncompressed ar else 1024 * 1024;
     FChunkHeader.StoredAs := stored_as ar;
     FChunkHeader.HashType :=
       if (2 <=? version ar) && negb lazy then hash_type ar
       else EChunkHashFlags.RollingPoly64;
     FChunkHeader.RollingHash := if lazy then 0 else rolling_hash ar;
     FChunkHeader.SHAHash :=
       if (2 <=? version ar) && negb lazy then Some (sha_hash ar) else None |}.
End Layout.

(** Where a rejected decode leaves the cursor, in bytes from its start: the
    constructor does not rewind. *)
Definition decode_stop (ar : FArchive) : Z :=
  if size_left ar <? 41 then 0
  else if negb (Layout.magic ar =? FChunkHeader.MAGIC) then 41
  else if size_left ar <? 62 then 41
  else 62.

(** The archive after the constructor has run. *)
Definition decode_final (ar : FArchive) : FArchive :=
  if Layout.accepted ar
  then {| ar_data := ar_data ar;
          ar_offset := Z.to_N (Z.of_N (ar_offset ar) + Layout.header_size ar) |}
  else advance ar (decode_stop ar).

(** ** FileChunkPart *)

Record ManifestOptions : Type := {
  cacheDirectory : option string;
  lazy : bool;
  chunkBaseUri : option string;
}.

(** The file system as [loadData] sees it: the content of each existing
    path.  Reading a missing file throws; writing is taken to succeed. *)
Abbreviation FS := (gmap string bytes).

Definition fs_existsSync (path : string) : M FS bool :=
  emit (EvExists path) ;;;
  fs <- get ;;
  ret (bool_decide (is_Some (fs !! path))).

Definition fs_readFileSync (path : string) : M FS bytes :=
  emit (EvReadFile path) ;;;
  fs <- get ;;
  match fs !! path with
  | Some data => ret data
  | None => throw ("Error: ENOENT: no such file or directory, open '" +:+ path +:+ "'")
  end.

Definition fs_writeFileSync (path : string) (data : bytes) : M FS unit :=
  emit (EvWriteFile path data) ;;;
  fs <- get ;;
  put (<[path := data]> fs).

(** Runs archive code on a fresh local archive; the log is shared. *)
Definition with_archive {S A} (ar : FArchive) (m : M FArchive A) : M S A :=
  fun s log => let '(r, _, log') := m ar log in (r, s, log').

(** [s.endsWith("/")]. *)
Definition endsWith_slash (s : string) : bool :=
  match last (list_ascii_of_string s) with
  | Some c => Ascii.eqb c "/"%char
  | None => false
  end.

(** A number in a template literal. *)
Definition Number_toString (z : Z) : string := NilZero.string_of_int (Z.to_int z).

(** A nullable string in a template literal. *)
Definition nullable_toString (s : option string) : string :=
  match s with
  | Some s => s
  | None => "null"
  end.

Module FileChunkPart.

(** [Offset] and [Size] are the byte offset and byte count that the
    constructor copies from the manifest's chunk part, where they are
    unsigned 32-bit values. *)
Record t : Type := {
  Guid : string;
  Offset : N;
  Size : N;
  Hash : string;
  Sha : option string;
  DataGroup : string;
  Filename : string;
  Url : string;
  _options : ManifestOptions;
}.

Section WithEnv.
Context `{Env}.

(** The cache branch of [loadData] (lines 58 to 70). *)
Definition load_cached (this : t) (path : string) : M FS bytes :=
  data <- fs_readFileSync path ;;
  if negb (lazy (_options this)) then
    h <- FChunkHeader.rolling_hash data ;;
    let hash := toHex h in
    if negb (String.eqb hash (Hash this)) then
      throw ("Chunk '" +:+ Filename this +:+ "' is corrupted: Hash mismatch ("
             +:+ hash +:+ " != " +:+ Hash this +:+ ")")
    else
      sha <- FChunkHeader.sha1 data ;;
      if negb (bool_decide (Some sha = Sha this)) then
        throw ("Chunk '" +:+ Filename this +:+ "' is corrupted: Sha mismatch ("
               +:+ sha +:+ " != " +:+ nullable_toString (Sha this) +:+ ")")
      else ret data
  else ret data.

(** The download branch of [loadData] (lines 72 to 95).  [load] never
    returns [Success] without a buffer; that case is kept for the shape of
    the source, where [buf] is nullable. *)
Definition load_remote (this : t) (path : option string) : M FS bytes :=
  match chunkBaseUri (_options this) with
  | None =>
      throw "'<ManifestOptions>.chunkBaseUri' can not be empty for downloading chunks"
  | Some base =>
      let uri := base +:+ (if endsWith_slash base then "" else "/") +:+ Url this in
      emit (EvRequest uri) ;;;
      match request uri with
      | None => throw "Error: request failed"
      | Some (status, content) =>
          if negb (status =? 200) then
            throw ("Failed to download '" +:+ Filename this
                   +:+ "': Request failed with status '"
                   +:+ Number_toString status +:+ "'")
          else
            r <- with_archive (FArchive_new content)
                   (magic <- Ar.readUInt32 ;;
                    if negb (magic =? FChunkHeader.MAGIC) then
                      throw ("Chunk '" +:+ Filename this
                             +:+ "' is invalid: Header magic mismatch (0x"
                             +:+ toHex magic +:+ " != 0x"
                             +:+ toHex FChunkHeader.MAGIC +:+ ")")
                    else
                      Ar.seek 0 ;;;
                      header <- FChunkHeader.new (lazy (_options this)) ;;
                      FChunkHeader.load (fst header) (lazy (_options this))) ;;
            let '(status, buf) := r in
            match status, buf with
            | Success, Some data =>
                match path with
                | Some p => fs_writeFileSync p data
                | None => ret tt
                end ;;;
                ret data
            | Success, None =>
                throw "TypeError: Cannot read properties of null (reading 'copy')"
            | _, _ =>
                throw ("Chunk '" +:+ Filename this
                       +:+ "' is invalid: Load result 'EChunkLoadResult::"
                       +:+ EChunkLoadResult_name status +:+ "'")
            end
      end
  end.

(** [loadData], lines 53 to 96: the full payload, from the cache or from
    the network. *)
Definition fetch_payload (this : t) : M FS bytes :=
  let dir := cacheDirectory (_options this) in
  let path := match dir with
              | Some d => Some (join d (Filename this))
              | None => None
              end in
  hit <- match path with
         | Some p => fs_existsSync p
         | None => ret false
         end ;;
  if hit then
    match path with
    | Some p => load_cached this p
    | None => ret []
    end
  else load_remote this path.

(** [loadData()]. *)
Definition loadData (this : t) : M FS bytes :=
  data <- fetch_payload this ;;
  result <- Buffer_alloc (Z.of_N (Size this)) ;;
  Buffer_copy data result 0 (Z.of_N (Offset this))
              (Z.of_N (Offset this) + Z.of_N (Size this)).

End WithEnv.
End FileChunkPart.

(** ** The constructor of FileChunkPart *)

(** Modelled from the spec: [data/FChunkPart] is not among the sources.  A
    chunk part names a chunk by its GUID and carries the byte offset and
    size wanted from its payload. *)
Record FChunkPart : Type := {
  part_Guid : FGuid;
  part_Offset : N;
  part_Size : N;
}.

(** What the constructor imports beyond [Env]: the printing of a GUID, the
    type of the digests kept by the manifest, [toHex] with a length, and
    what [toHex] does when its argument is [undefined] (a value, or a
    throw).  [misc/FGuid] and [misc/HexUtils] are not among the sources. *)
Class ManifestEnv : Type := {
  ShaValue : Type;
  FGuid_toString : FGuid -> string;
  toHex_sized : ShaValue -> Z -> string;
  toHex_undefined : Res string;
  toHex_sized_undefined : Z -> Res string;
}.

(** Modelled from the spec: [Manifest] is not among the sources.  The
    constructor uses its options and three objects indexed by the GUID
    string; indexing an object by a missing key gives [undefined]. *)
Record Manifest `{ManifestEnv} : Type := {
  Options : ManifestOptions;
  ChunkHashList : gmap string Z;
  ChunkShaList : gmap string ShaValue;
  DataGroupList : gmap string Z;
}.

(** [s.substr(start)]: from [start], counted from the end when negative, to
    the end of the string. *)
Definition String_substr (start : Z) (s : string) : string :=
  let len := Z.of_nat (String.length s) in
  let from := if start <? 0 then Z.max (len + start) 0 else Z.min start len in
  String.substring (Z.to_nat from) (Z.to_nat (len - from)) s.

(** A value or a throw, as a computation. *)
Definition lift_res {S A} (r : Res A) : M S A :=
  match r with
  | Ok a => ret a
  | Throw e => throw e
  end.

(** The two decimal digits of [n mod 100]. *)
Definition two_digits (n : Z) : string :=
  String (ascii_of_N (48 + Z.to_N (n / 10 mod 10)))
    (String (ascii_of_N (48 + Z.to_N (n mod 10))) "").

Module FileChunkPartCtor.
Section WithEnv.
Context `{Env} `{ManifestEnv}.

(** [('00' + group.toString()).substr(-2)] (line 46). *)
Definition data_group (group : Z) : string :=
  String_substr (-2) ("00" +:+ Number_toString group).

(** [new FileChunkPart(chunk, manifest)]. *)
Definition new {S} (chunk : FChunkPart) (manifest : Manifest) : M S FileChunkPart.t :=
  let _options := Options manifest in
  let Guid := FGuid_toString (part_Guid chunk) in
  let Offset := part_Offset chunk in
  let Size := part_Size chunk in
  Hash <- match ChunkHashList manifest !! Guid with
          | Some v => ret (toHex v)
          | None => lift_res toHex_undefined
          end ;;
  Sha <- (if lazy _options then ret None
          else
            sha <- match ChunkShaList manifest !! Guid with
                   | Some v => ret (toHex_sized v 20)
                   | None => lift_res (toHex_sized_undefined 20)
                   end ;;
            ret (Some sha)) ;;
  DataGroup <- match DataGroupList manifest !! Guid with
               | Some group => ret (data_group group)
               | None =>
                   throw "TypeError: Cannot read properties of undefined (reading 'toString')"
               end ;;
  let Filename := Hash +:+ "_" +:+ Guid +:+ ".chunk" in
  let Url := DataGroup +:+ "/" +:+ Filename in
  ret {| FileChunkPart.Guid := Guid;
         FileChunkPart.Offset := Offset;
         FileChunkPart.Size := Size;
         FileChunkPart.Hash := Hash;
         FileChunkPart.Sha := Sha;
         FileChunkPart.DataGroup := DataGroup;
         FileChunkPart.Filename := Filename;
         FileChunkPart.Url := Url;
         FileChunkPart._options := _options |}.

End WithEnv.
End FileChunkPartCtor.

(** ** Vocabulary of the statements *)

Section Vocabulary.
Context `{Env}.
Import FChunkHeader.

(** The flag tests of [load], named. *)
Definition compressed (h : t) : bool :=
  Z.land (StoredAs h) EChunkStorageFlags.Compressed =? EChunkStorageFlags.Compressed.
Definition encrypted (h : t) : bool :=
  Z.land (StoredAs h) EChunkStorageFlags.Encrypted =? EChunkStorageFlags.Encrypted.
Definition has_rolling (h : t) : bool :=
  Z.land (HashType h) EChunkHashFlags.RollingPoly64 =? EChunkHashFlags.RollingPoly64.
Definition has_sha1 (h : t) : bool :=
  Z.land (HashType h) EChunkHashFlags.Sha1 =? EChunkHashFlags.Sha1.

(** [h] is the object that [new FChunkHeader(ar, lazy)] built from some
    archive. *)
Definition decoded (lazy : bool) (h : t) : Prop :=
  exists ar log b ar' log', new lazy ar log = (Ok (h, b), ar', log').

(** The sizes passed to [ar.read], in order. *)
Definition payload_reads (log : list event) : list Z :=
  omap (fun e => match e with EvArchiveRead n => Some n | _ => None end) log.

(** Whenever [load] gets as far as the verification block with the final
    payload [buf], both hash computations are run on [buf]. *)
Definition both_checks_dispatched (h : t) (ar : FArchive) (log : list event) : Prop :=
  forall buf ar' log',
    load_payload h false ar log = (Ok (inr buf), ar', log') ->
    In (EvRollingHash buf) (log_of (load h false ar log))
    /\ In (EvSha1 buf) (log_of (load h false ar log)).
End Vocabulary.

(** ** Vocabulary for the resolver *)

Section ResolverVocabulary.
Context `{Env}.
Import FileChunkPart.

(** The local [path] of [loadData]. *)
Definition cache_path_of (this : t) : option string :=
  match cacheDirectory (_options this) with
  | Some d => Some (join d (Filename this))
  | None => None
  end.

(** The test of line 57. *)
Definition cache_hit (this : t) (fs : gmap string bytes) : bool :=
  match cache_path_of this with
  | Some p => bool_decide (is_Some (fs !! p))
  | None => false
  end.

(** What evaluating that test logs: [existsSync] is called only when there
    is a path. *)
Definition probe_log (this : t) : list event :=
  match cache_path_of this with
  | Some p => [EvExists p]
  | None => []
  end.

(** The URI of line 76. *)
Definition request_uri (this : t) (base : string) : string :=
  base +:+ (if endsWith_slash base then "" else "/") +:+ Url this.

Definition is_write_event (e : event) : bool :=
  match e with
  | EvWriteFile _ _ => true
  | _ => false
  end.

(** The bytes of a payload in the window [(offset, size)], followed by zeros
    up to [size]. *)
Definition window (data : bytes) (offset size : N) : bytes :=
  take (N.to_nat size) (drop (N.to_nat offset) data)
  ++ replicate (N.to_nat size
                - length (take (N.to_nat size) (drop (N.to_nat offset) data)))
       zero_byte.
End ResolverVocabulary.

(** ** A small concrete environment

    Used to run the definitions on concrete containers.  The hash functions
    are stand-ins (a byte sum and a weighted byte sum), the compressor stores
    its input behind a one-byte marker, and the network serves one table. *)

Module Demo.
Import Byte.

Definition hex_digit (n : N) : ascii :=
  match n with
  | 0%N => "0" | 1%N => "1" | 2%N => "2" | 3%N => "3"
  | 4%N => "4" | 5%N => "5" | 6%N => "6" | 7%N => "7"
  | 8%N => "8" | 9%N => "9" | 10%N => "A" | 11%N => "B"
  | 12%N => "C" | 13%N => "D" | 14%N => "E" | _ => "F"
  end%char.

Fixpoint hex_pos (fuel : nat) (n : N) (acc : string) : string :=
  match fuel with
  | O => acc
  | S fuel =>
      let acc := String (hex_digit (n mod 16)%N) acc in
      if (n / 16 =? 0)%N then acc else hex_pos fuel (n / 16)%N acc
  end.

Definition hex (z : Z) : string := hex_pos 64 (Z.to_N z) "".

Definition byte_sum (buf : bytes) : Z :=
  fold_right (fun b acc => Z.of_N (Byte.to_N b) + acc) 0 buf.

Fixpoint weighted_sum (k : Z) (buf : bytes) : Z :=
  match buf with
  | [] => 0
  | b :: rest => k * Z.of_N (Byte.to_N b) + weighted_sum (k + 1) rest
  end.

Definition stored_inflate (buf : bytes) : option bytes :=
  match buf with
  | x78 :: rest => Some rest
  | _ => None
  end.

Definition sizes (v : Z) : Z :=
  if v =? 1 then 41 else if v =? 2 then 62 else if v =? 3 then 66 else 0.

#[local] Instance env (net : string -> option (Z * bytes)) : Env := {|
  GetHashForDataSet := byte_sum;
  sha1_hex_upper := fun buf => hex (weighted_sum 1 buf);
  inflateSync := stored_inflate;
  toHex := hex;
  FSHAHash_toString := fun d => hex (le_to_Z d);
  join := fun d f => d +:+ "/" +:+ f;
  request := net;
  EChunkVersion_Latest := 3;
  ChunkHeaderVersionSizes := sizes;
  sizes_Original := eq_refl;
  sizes_StoresShaAndHashType := eq_refl;
  sizes_StoresDataSizeUncompressed := eq_refl;
|}.

Definition no_net : string -> option (Z * bytes) := fun _ => None.

(** The sixteen bytes of a non-zero GUID. *)
Definition guid1 : bytes :=
  [x01; x02; x03; x04; x05; x06; x07; x08; x09; x0a; x0b; x0c; x0d; x0e; x0f; x10].

Definition magic_le : bytes := [xa2; x3a; xfe; xb1].

(** A version 1 container: header of 41 bytes, rolling hash 6, stored
    uncompressed, payload [1; 2; 3]. *)
Definition container_v1 : bytes :=
  magic_le ++ [x01; x00; x00; x00] ++ [x29; x00; x00; x00] ++ [x03; x00; x00; x00]
  ++ guid1 ++ [x06; x00; x00; x00; x00; x00; x00; x00] ++ [x00]
  ++ [x01; x02; x03].

(** A version 3 container: header of 66 bytes, rolling hash [rh], storage
    flags [st], digest bytes [d0 :: 0 ...] (little-endian value [d0]), both
    hash flags, uncompressed size [usz], then [payload]. *)
Definition container_v3 (rh st d0 usz : byte) (csz : byte) (payload : bytes) : bytes :=
  magic_le ++ [x03; x00; x00; x00] ++ [x42; x00; x00; x00] ++ [csz; x00; x00; x00]
  ++ guid1 ++ [rh; x00; x00; x00; x00; x00; x00; x00] ++ [st]
  ++ (d0 :: replicate 19 x00) ++ [x03]
  ++ [usz; x00; x00; x00]
  ++ payload.

(** [container_v1] with one bit of the magic codeword flipped. *)
Definition container_bad_magic : bytes :=
  [xa3; x3a; xfe; xb1] ++ drop 4 container_v1.

(** The header that the constructor builds from [container_v1] with
    verification enabled, and the archive it leaves behind. *)
Definition header_v1 : FChunkHeader.t :=
  {| FChunkHeader.Version := 1;
     FChunkHeader.HeaderSize := 41;
     FChunkHeader.Guid := Some guid1;
     FChunkHeader.DataSizeCompressed := 3;
     FChunkHeader.DataSizeUncompressed := 1048576;
     FChunkHeader.StoredAs := 0;
     FChunkHeader.HashType := 1;
     FChunkHeader.RollingHash := 6;
     FChunkHeader.SHAHash := None |}.

Definition archive_v1_payload : FArchive :=
  {| ar_data := container_v1; ar_offset := 41 |}.

(** The header built from a container, and the archive positioned at its
    payload. *)
Definition header_of (lazy : bool) (container : bytes) : FChunkHeader.t :=
  match FChunkHeader.new (H := env no_net) lazy (FArchive_new container) [] with
  | (Ok (h, _), _, _) => h
  | _ => FChunkHeader.initial (H := env no_net)
  end.

Definition payload_archive (lazy : bool) (container : bytes) : FArchive :=
  state_of (FChunkHeader.new (H := env no_net) lazy (FArchive_new container) []).

(** A version 3 container whose two stored hashes match its payload
    [1; 2; 3] (byte sum 6, weighted sum 14), stored uncompressed. *)
Definition container_v3_good : bytes :=
  container_v3 x06 x00 x0e x03 x03 [x01; x02; x03].
Definition header_v3_good : FChunkHeader.t :=
  Eval vm_compute in header_of false container_v3_good.
Definition archive_v3_good : FArchive :=
  Eval vm_compute in payload_archive false container_v3_good.

(** The same container with a wrong rolling hash (7) and the right digest. *)
Definition container_v3_bad_rolling : bytes :=
  container_v3 x07 x00 x0e x03 x03 [x01; x02; x03].
Definition header_v3_bad_rolling : FChunkHeader.t :=
  Eval vm_compute in header_of false container_v3_bad_rolling.
Definition archive_v3_bad_rolling : FArchive :=
  Eval vm_compute in payload_archive false container_v3_bad_rolling.

(** The same container with both stored hashes wrong, decoded lazily. *)
Definition container_v3_bad_both : bytes :=
  container_v3 x07 x00 x0f x03 x03 [x01; x02; x03].
Definition header_v3_lazy : FChunkHeader.t :=
  Eval vm_compute in header_of true container_v3_bad_both.
Definition archive_v3_lazy : FArchive :=
  Eval vm_compute in payload_archive true container_v3_bad_both.

(** A version 3 container stored compressed: four stored bytes that inflate
    to [1; 2; 3]. *)
Definition container_v3_compressed : bytes :=
  container_v3 x06 x01 x0e x03 x04 [x78; x01; x02; x03].
Definition header_v3_compressed : FChunkHeader.t :=
  Eval vm_compute in header_of false container_v3_compressed.
Definition archive_v3_compressed : FArchive :=
  Eval vm_compute in payload_archive false container_v3_compressed.

(** A chunk reference and its surroundings: cache directory [cache], base
    URI [https://cdn], expected rolling hash 6 (printed [6]), data group 7. *)
Definition options (lz : bool) : ManifestOptions :=
  {| cacheDirectory := Some "cache"; lazy := lz; chunkBaseUri := Some "https://cdn" |}.

Definition part (lz : bool) (sha : option string) (offset size : N) : FileChunkPart.t :=
  {| FileChunkPart.Guid := "G1";
     FileChunkPart.Offset := offset;
     FileChunkPart.Size := size;
     FileChunkPart.Hash := "6";
     FileChunkPart.Sha := sha;
     FileChunkPart.DataGroup := "07";
     FileChunkPart.Filename := "6_G1.chunk";
     FileChunkPart.Url := "07/6_G1.chunk";
     FileChunkPart._options := options lz |}.

Definition cache_path : string := "cache/6_G1.chunk".

(** The chunk store serves [container_v1] for this reference. *)
Definition net_v1 (uri : string) : option (Z * bytes) :=
  if String.eqb uri "https://cdn/07/6_G1.chunk" then Some (200, container_v1) else None.

(** A cache that holds the payload, and one that holds other bytes. *)
Definition cached_fs : gmap string bytes := {[ cache_path := [x01; x02; x03] ]}.
Definition corrupted_fs : gmap string bytes := {[ cache_path := [x09; x09] ]}.
Definition empty_fs : gmap string bytes := ∅.
End Demo.

(** More containers, built from the ones above. *)
Module DemoMore.
Import Byte.
Import Demo.

(** [container_v3_good] with the version field set to 9. *)
Definition container_version_9 : bytes :=
  take 4 container_v3_good ++ [x09; x00; x00; x00] ++ drop 8 container_v3_good.
Definition header_version_9 : FChunkHeader.t :=
  Eval vm_compute in header_of false container_version_9.

(** [container_v3_good] with the hash type byte set to 4, a value that has
    neither the rolling flag nor the SHA-1 flag, and with a wrong rolling
    hash and a wrong digest. *)
Definition container_unknown_flag : bytes :=
  take 61 container_v3_bad_both ++ [x04] ++ drop 62 container_v3_bad_both.
Definition header_unknown_flag : FChunkHeader.t :=
  Eval vm_compute in header_of false container_unknown_flag.
Definition archive_unknown_flag : FArchive :=
  Eval vm_compute in payload_archive false container_unknown_flag.

(** A compressed container whose four stored bytes inflate to three bytes
    while the header announces five. *)
Definition container_short_inflate : bytes :=
  container_v3 x06 x01 x0e x05 x04 [x78; x01; x02; x03].
Definition header_short_inflate : FChunkHeader.t :=
  Eval vm_compute in header_of false container_short_inflate.
Definition archive_short_inflate : FArchive :=
  Eval vm_compute in payload_archive false container_short_inflate.

(** A container flagged compressed whose stored bytes the compressor
    rejects. *)
Definition container_not_deflate : bytes :=
  container_v3 x06 x01 x0e x03 x03 [x01; x02; x03].
Definition header_not_deflate : FChunkHeader.t :=
  Eval vm_compute in header_of false container_not_deflate.
Definition archive_not_deflate : FArchive :=
  Eval vm_compute in payload_archive false container_not_deflate.

(** [container_v1] with the header size field set to 200. *)
Definition container_long_header : bytes :=
  take 8 container_v1 ++ [xc8; x00; x00; x00] ++ drop 12 container_v1.
Definition header_long_header : FChunkHeader.t :=
  Eval vm_compute in header_of false container_long_header.
Definition archive_long_header : FArchive :=
  Eval vm_compute in payload_archive false container_long_header.

(** The chunk store answers 404, or serves bytes that are not a chunk, or
    serves the container with the wrong rolling hash. *)
Definition net_404 (uri : string) : option (Z * bytes) := Some (404, []).
Definition net_not_a_chunk (uri : string) : option (Z * bytes) :=
  Some (200, [x00; x01; x02; x03; x04]).
Definition net_bad_rolling (uri : string) : option (Z * bytes) :=
  Some (200, container_v3_bad_rolling).

(** The chunk store serves the first twenty bytes of [container_v1]. *)
Definition net_truncated (uri : string) : option (Z * bytes) :=
  Some (200, take 20 container_v1).

(** Options without a cache directory, and without a base URI. *)
Definition options_no_cache (lz : bool) : ManifestOptions :=
  {| cacheDirectory := None; lazy := lz; chunkBaseUri := Some "https://cdn/" |}.
Definition options_nothing (lz : bool) : ManifestOptions :=
  {| cacheDirectory := None; lazy := lz; chunkBaseUri := None |}.
Definition options_cache_only (lz : bool) : ManifestOptions :=
  {| cacheDirectory := Some "cache"; lazy := lz; chunkBaseUri := None |}.

Definition part_with (o : ManifestOptions) (offset size : N) : FileChunkPart.t :=
  {| FileChunkPart.Guid := "G1";
     FileChunkPart.Offset := offset;
     FileChunkPart.Size := size;
     FileChunkPart.Hash := "6";
     FileChunkPart.Sha := Some "E";
     FileChunkPart.DataGroup := "07";
     FileChunkPart.Filename := "6_G1.chunk";
     FileChunkPart.Url := "07/6_G1.chunk";
     FileChunkPart._options := o |}.

(** A manifest environment: GUIDs print as the decimal of their first byte
    after a [G], digests are numbers printed in hexadecimal, and [toHex]
    of [undefined] throws. *)
#[local] Instance manifest_env : ManifestEnv := {|
  ShaValue := Z;
  FGuid_toString := fun g => "G" +:+ Number_toString (le_to_Z (take 1 g));
  toHex_sized := fun v _ => hex v;
  toHex_undefined := Throw "TypeError: toHex of undefined";
  toHex_sized_undefined := fun _ => Throw "TypeError: toHex of undefined";
|}.

Definition chunk_part : FChunkPart :=
  {| part_Guid := guid1; part_Offset := 1; part_Size := 2 |}.

Definition groups_7 : gmap string Z := {[ "G1" := 7 ]}.
Definition no_groups : gmap string Z := ∅.

Definition manifest (lz : bool) (groups : gmap string Z) : Manifest :=
  {| Options := options lz;
     ChunkHashList := {[ "G1" := 6 ]};
     ChunkShaList := {[ "G1" := 14 ]};
     DataGroupList := groups |}.
End DemoMore.

(** * Properties *)

(** ** Running the monad *)

Lemma bind_ok {S A B} (m : M S A) (k : A -> M S B) s log a s' log' :
  m s log = (Ok a, s', log') -> bind m k s log = k a s' log'.
Proof. intros E. unfold bind. now rewrite E. Qed.

(** ** Bytes and the archive *)

Lemma le_to_Z_nonneg (bs : bytes) : 0 <= le_to_Z bs.
Proof. induction bs as [|b bs IH]; simpl; lia. Qed.

Lemma advance_0 ar : advance ar 0 = ar.
Proof.
  destruct ar as [d o]. unfold advance. simpl. f_equal. lia.
Qed.

Lemma advance_advance ar a b :
  0 <= a -> 0 <= b -> advance (advance ar a) b = advance ar (a + b).
Proof. intros Ha Hb. unfold advance. simpl. f_equal. lia. Qed.

Lemma tell_run ar log : Ar.tell ar log = (Ok (Z.of_N (ar_offset ar)), ar, log).
Proof. reflexivity. Qed.

Lemma size_run ar log : Ar.size ar log = (Ok (Z.of_nat (length (ar_data ar))), ar, log).
Proof. reflexivity. Qed.

Lemma tell_adv ar p log :
  0 <= p -> Ar.tell (advance ar p) log = (Ok (Z.of_N (ar_offset ar) + p), advance ar p, log).
Proof. intros Hp. unfold Ar.tell, advance. simpl. do 2 f_equal. f_equal. lia. Qed.

Lemma size_adv ar p log :
  Ar.size (advance ar p) log = (Ok (Z.of_nat (length (ar_data ar))), advance ar p, log).
Proof. reflexivity. Qed.

Lemma skip_run ar p n log :
  0 <= p -> 0 <= n ->
  Ar.skip n (advance ar p) log = (Ok tt, advance ar (p + n), log).
Proof.
  intros Hp Hn. unfold Ar.skip. now rewrite <- (advance_advance ar p n).
Qed.

Lemma take_bytes_run ar p n log :
  0 <= p -> 0 <= n -> p + n <= size_left ar ->
  Ar.take_bytes n (advance ar p) log = (Ok (slice_at ar p n), advance ar (p + n), log).
Proof.
  intros Hp Hn Hle. unfold Ar.take_bytes, size_left in *. simpl.
  destruct (Z.ltb_spec n 0); [lia|]. simpl.
  destruct (Z.ltb_spec (Z.of_nat (length (ar_data ar)))
              (Z.of_N (Z.to_N (Z.of_N (ar_offset ar) + p)) + n)); [lia|].
  rewrite <- (advance_advance ar p n) by lia. unfold slice_at, advance. simpl.
  repeat f_equal. lia.
Qed.

Lemma readUInt8_run ar p log :
  0 <= p -> p + 1 <= size_left ar ->
  Ar.readUInt8 (advance ar p) log = (Ok (le_to_Z (slice_at ar p 1)), advance ar (p + 1), log).
Proof.
  intros. unfold Ar.readUInt8. now rewrite (bind_ok _ _ _ _ _ _ _ (take_bytes_run ar p 1 log ltac:(lia) ltac:(lia) ltac:(lia))).
Qed.

Lemma readUInt32_run ar p log :
  0 <= p -> p + 4 <= size_left ar ->
  Ar.readUInt32 (advance ar p) log = (Ok (le_to_Z (slice_at ar p 4)), advance ar (p + 4), log).
Proof.
  intros. unfold Ar.readUInt32. now rewrite (bind_ok _ _ _ _ _ _ _ (take_bytes_run ar p 4 log ltac:(lia) ltac:(lia) ltac:(lia))).
Qed.

Lemma readUInt64_run ar p log :
  0 <= p -> p + 8 <= size_left ar ->
  Ar.readUInt64 (advance ar p) log = (Ok (le_to_Z (slice_at ar p 8)), advance ar (p + 8), log).
Proof.
  intros. unfold Ar.readUInt64. now rewrite (bind_ok _ _ _ _ _ _ _ (take_bytes_run ar p 8 log ltac:(lia) ltac:(lia) ltac:(lia))).
Qed.

(** ** The constructor agrees with the layout *)

(** Runs the archive primitive at the head of the goal. *)
Ltac run_archive :=
  repeat (first
    [ rewrite tell_adv by lia
    | rewrite size_adv
    | rewrite skip_run by lia
    | rewrite take_bytes_run by lia
    | rewrite readUInt8_run by lia
    | rewrite readUInt32_run by lia
    | rewrite readUInt64_run by lia ];
    cbv beta iota).

Section Decode.
Context `{Env}.
Import FChunkHeader.

Lemma read_v2_run lazy ar this b e log :
  read_v2 lazy (size_left ar) (this, b, e) (advance ar 41) log =
  if b && (2 <=? Version this) then
    if 62 <=? size_left ar then
      (Ok (if lazy then this
           else set_HashType (Layout.hash_type ar)
                  (set_SHAHash (Layout.sha_hash ar) this), true, 62),
       advance ar 62, log)
    else (Ok (this, false, 62), advance ar 41, log)
  else (Ok (this, b, e), advance ar 41, log).
Proof.
  unfold read_v2. rewrite sizes_StoresShaAndHashType.
  rewrite !Z.geb_leb. unfold EChunkVersion.StoresShaAndHashType.
  destruct (b && (2 <=? Version this)); [|reflexivity].
  destruct (Z.leb_spec 62 (size_left ar)) as [Hs|Hs]; [|reflexivity].
  unfold FSHAHash_read, FSHAHash_SIZE, bind, ret.
  destruct lazy; run_archive; reflexivity.
Qed.

Lemma read_v3_run ar this b e log :
  read_v3 (size_left ar) (this, b, e) (advance ar 62) log =
  if b && (3 <=? Version this) then
    if 66 <=? size_left ar then
      (Ok (set_DataSizeUncompressed (Layout.data_size_uncompressed ar) this, true, 66),
       advance ar 66, log)
    else (Ok (this, false, 66), advance ar 62, log)
  else (Ok (this, b, e), advance ar 62, log).
Proof.
  unfold read_v3. rewrite sizes_StoresDataSizeUncompressed.
  rewrite !Z.geb_leb. unfold EChunkVersion.StoresDataSizeUncompressed.
  destruct (b && (3 <=? Version this)); [|reflexivity].
  destruct (Z.leb_spec 66 (size_left ar)) as [Hs|Hs]; [|reflexivity].
  unfold bind, ret. run_archive. reflexivity.
Qed.

Lemma read_v3_skip sl this b e ar log :
  b && (3 <=? Version this) = false ->
  read_v3 sl (this, b, e) ar log = (Ok (this, b, e), ar, log).
Proof.
  intros E. unfold read_v3. rewrite Z.geb_leb.
  unfold EChunkVersion.StoresDataSizeUncompressed. now rewrite E.
Qed.

Lemma new_run_adv lazy ar log :
  exists ar',
    new lazy (advance ar 0) log
    = (Ok (if Layout.accepted ar then Layout.fields lazy ar else zeroed,
           Layout.accepted ar), ar', log)
    /\ ar_data ar' = ar_data ar
    /\ (Layout.accepted ar = true ->
        ar_offset ar' = Z.to_N (Z.of_N (ar_offset ar) + Layout.header_size ar)).
Proof.
  unfold new, bind at 1 2. run_archive.
  replace (Z.of_nat (length (ar_data ar)) - (Z.of_N (ar_offset ar) + 0))
    with (size_left ar) by (unfold size_left; lia).
  rewrite sizes_Original, Z.geb_leb.
  unfold Layout.accepted, Layout.fields.
  destruct (Z.leb_spec 41 (size_left ar)) as [H41|H41].
  2:{ unfold bind, ret. run_archive. simpl.
      eexists; split; [reflexivity|]. split; [reflexivity|discriminate]. }
  unfold FGuid_read, bind, ret.
  destruct lazy; run_archive; rewrite read_v2_run;
    cbn [Version set_StoredAs set_Guid set_DataSizeCompressed set_HeaderSize
         set_Version set_RollingHash];
    change (le_to_Z (slice_at ar 0 4)) with (Layout.magic ar);
    change (le_to_Z (slice_at ar (0 + 4) 4)) with (Layout.version ar);
    destruct (Z.eqb_spec (Layout.magic ar) MAGIC) as [Hm|Hm];
    destruct (Z.leb_spec 2 (Layout.version ar)) as [H2|H2];
    destruct (Z.leb_spec 62 (size_left ar)) as [H62|H62];
    cbn [andb orb negb];
    (first [ rewrite read_v3_run
           | rewrite read_v3_skip
               by (cbn [Version set_StoredAs set_Guid set_DataSizeCompressed
                        set_HeaderSize set_Version set_RollingHash set_HashType
                        set_SHAHash];
                   first [ reflexivity
                         | rewrite andb_true_l; apply Z.leb_gt; lia ]) ]);
    cbn [Version set_StoredAs set_Guid set_DataSizeCompressed set_HeaderSize
         set_Version set_RollingHash set_HashType set_SHAHash];
    destruct (Z.leb_spec 3 (Layout.version ar)) as [H3|H3];
    destruct (Z.leb_spec 66 (size_left ar)) as [H66|H66];
    destruct (Z.ltb_spec (Layout.version ar) 2) as [L2|L2];
    destruct (Z.ltb_spec (Layout.version ar) 3) as [L3|L3];
    try lia;
    cbn [andb orb negb]; run_archive;
    repeat match goal with
           | |- context [Z.eqb ?a ?b] =>
               first [ rewrite (proj2 (Z.eqb_eq a b)) by lia
                     | rewrite (proj2 (Z.eqb_neq a b)) by lia ]
           end;
    cbn [andb orb negb]; unfold Ar.seek;
    (eexists; split; [reflexivity|]; split; [reflexivity|]);
    first [ discriminate
          | intros _;
            cbn [ar_offset HeaderSize set_StoredAs set_Guid set_DataSizeCompressed
                 set_HeaderSize set_Version set_RollingHash set_HashType
                 set_SHAHash set_DataSizeUncompressed];
            change (le_to_Z (slice_at ar (0 + 4 + 4) 4)) with (Layout.header_size ar);
            f_equal; lia ].
Qed.

(** The constructor never throws; it accepts exactly the archives that
    [Layout.accepted] describes, assigns the fields that [Layout.fields]
    describes, and otherwise resets all of them. *)
Lemma new_run lazy ar log :
  exists ar',
    new lazy ar log
    = (Ok (if Layout.accepted ar then Layout.fields lazy ar else zeroed,
           Layout.accepted ar), ar', log)
    /\ ar_data ar' = ar_data ar
    /\ (Layout.accepted ar = true ->
        ar_offset ar' = Z.to_N (Z.of_N (ar_offset ar) + Layout.header_size ar)).
Proof.
  pose proof (new_run_adv lazy ar log) as P. now rewrite advance_0 in P.
Qed.
End Decode.

(** ** Running [load] *)

Lemma Buffer_alloc_run {S} n (s : S) log :
  0 <= n -> Buffer_alloc n s log = (Ok (replicate (Z.to_nat n) zero_byte), s, log).
Proof.
  intros Hn. unfold Buffer_alloc. now destruct (Z.ltb_spec n 0); [lia|].
Qed.

Lemma Buffer_copy_run {S} (source target : bytes) (a b : Z) (s : S) log :
  0 <= a <= Z.of_nat (length source) -> 0 <= b ->
  Buffer_copy source target 0 a b s log
  = (Ok (copied_window source target a b
         ++ drop (length (copied_window source target a b)) target), s, log).
Proof.
  intros Ha Hb. unfold Buffer_copy, copied_window.
  change (0 <? 0) with false. cbv iota.
  destruct (Z.ltb_spec a 0) as [?|_]; [lia|].
  destruct (Z.ltb_spec (Z.of_nat (length source)) a) as [?|_]; [lia|]. cbn [orb].
  destruct (Z.ltb_spec b 0) as [?|_]; [lia|].
  destruct (Z.leb_spec (Z.of_nat (length target)) 0) as [H0|H0]; cbn [orb].
  { destruct target; [|cbn [length] in H0; lia]. unfold ret. cbn [length].
    replace (Z.to_nat (Z.min (b - a) (Z.of_nat 0))) with 0%nat by lia.
    rewrite take_0. reflexivity. }
  destruct (Z.leb_spec b a) as [Hba|Hba].
  { unfold ret. rewrite Z.min_l by lia.
    replace (Z.to_nat (b - a)) with 0%nat by lia. rewrite take_0. reflexivity. }
  rewrite Z.sub_0_r. unfold ret. do 2 f_equal. f_equal.
  change (Z.to_nat 0) with 0%nat. rewrite take_0. cbn [app Nat.add].
  set (room := Z.of_nat (length target)) in *.
  assert (Hpiece :
    take (Z.to_nat
            (if Z.of_nat (length source) - a
                <? (if room <? b - a then a + room else b) - a
             then Z.of_nat (length source) - a
             else (if room <? b - a then a + room else b) - a))
         (drop (Z.to_nat a) source)
    = take (Z.to_nat (Z.min (b - a) room)) (drop (Z.to_nat a) source)).
  { assert (Hlen : Z.of_nat (length (drop (Z.to_nat a) source))
                   = Z.of_nat (length source) - a) by (rewrite length_drop; lia).
    destruct (Z.ltb_spec room (b - a)) as [Hr|Hr].
    - replace (a + room - a) with room by lia. rewrite (Z.min_r (b - a) room) by lia.
      destruct (Z.ltb_spec (Z.of_nat (length source) - a) room) as [Hs|Hs]; [|reflexivity].
      rewrite !take_ge by lia. reflexivity.
    - rewrite (Z.min_l (b - a) room) by lia.
      destruct (Z.ltb_spec (Z.of_nat (length source) - a) (b - a)) as [Hs|Hs]; [|reflexivity].
      rewrite !take_ge by lia. reflexivity. }
  rewrite Hpiece. reflexivity.
Qed.

(** Copying a whole buffer into a fresh one of the same length. *)
Lemma Buffer_copy_whole {S} (data target : bytes) (s : S) log :
  length target = length data ->
  Buffer_copy data target 0 0 (Z.of_nat (length data)) s log = (Ok data, s, log).
Proof.
  intros Hlen. rewrite Buffer_copy_run by lia. unfold copied_window.
  rewrite Z.sub_0_r, Hlen, Z.min_id, Nat2Z.id. change (Z.to_nat 0) with 0%nat.
  rewrite drop_0, firstn_all, drop_ge by lia. now rewrite app_nil_r.
Qed.

Lemma read_run ar n log :
  0 <= n -> n <= size_left ar ->
  Ar.read n ar log
  = (Ok (slice_at ar 0 n), advance ar n, log ++ [EvArchiveRead n]).
Proof.
  intros Hn Hle. unfold Ar.read, bind, emit.
  rewrite <- (advance_0 ar) at 1. rewrite take_bytes_run by lia.
  reflexivity.
Qed.

Lemma slice_at_length ar p n :
  0 <= p -> 0 <= n -> p + n <= size_left ar ->
  Z.of_nat (length (slice_at ar p n)) = n.
Proof.
  intros Hp Hn Hle. unfold slice_at, size_left in *.
  rewrite length_take, length_drop. lia.
Qed.

Section Load.
Context `{Env}.
Import FChunkHeader.

Lemma load_decompress_run h buf ar log :
  load_decompress h buf ar log =
  if compressed h then
    match inflateSync buf with
    | Some data =>
        if Z.of_nat (length data) =? DataSizeUncompressed h
        then (Ok (inr data), ar, log ++ [EvInflate buf])
        else (Ok (inl DecompressFailure), ar, log ++ [EvInflate buf])
    | None => (Throw "Error: incorrect header check", ar, log ++ [EvInflate buf])
    end
  else (Ok (inr buf), ar, log).
Proof.
  unfold load_decompress, compressed.
  destruct (Z.land (StoredAs h) EChunkStorageFlags.Compressed
            =? EChunkStorageFlags.Compressed); [|reflexivity].
  unfold inflate, bind, emit. destruct (inflateSync buf) as [data|]; [|reflexivity].
  unfold ret. destruct (Z.eqb_spec (Z.of_nat (length data)) (DataSizeUncompressed h)) as [E|E];
    [|reflexivity].
  cbn [negb]. rewrite Buffer_alloc_run by lia.
  rewrite Buffer_copy_whole; [reflexivity|].
  rewrite length_replicate. lia.
Qed.

Lemma load_payload_run h lazy ar log g :
  Guid h = Some g -> 0 <= DataSizeCompressed h ->
  load_payload h lazy ar log =
  if negb (FGuid_isValid g) then (Ok (inl CorruptHeader), ar, log)
  else if negb lazy && (HashType h =? EChunkHashFlags.None)
  then (Ok (inl MissingHashInfo), ar, log)
  else if size_left ar <? DataSizeCompressed h
  then (Ok (inl IncorrectFileSize), ar, log)
  else if encrypted h then (Ok (inl UnsupportedStorage), ar, log)
  else load_decompress h (slice_at ar 0 (DataSizeCompressed h))
         (advance ar (DataSizeCompressed h))
         (log ++ [EvArchiveRead (DataSizeCompressed h)]).
Proof.
  intros Hg Hn. unfold load_payload, encrypted. rewrite Hg.
  destruct (negb (FGuid_isValid g)); [reflexivity|].
  destruct (negb lazy && (HashType h =? EChunkHashFlags.None)); [reflexivity|].
  unfold bind at 1 2. rewrite tell_run, size_run. cbv beta iota.
  rewrite Z.gtb_ltb. fold (size_left ar).
  destruct (Z.ltb_spec (size_left ar) (DataSizeCompressed h)); [reflexivity|].
  destruct (Z.land (StoredAs h) EChunkStorageFlags.Encrypted
            =? EChunkStorageFlags.Encrypted); [reflexivity|].
  unfold bind. now rewrite read_run by lia.
Qed.

Lemma load_sha_run h buf ar log :
  load_sha h buf ar log =
  if has_sha1 h then
    match SHAHash h with
    | Some digest =>
        if String.eqb (sha1_hex_upper buf) (FSHAHash_toString digest)
        then (Ok (Success, Some buf), ar, log ++ [EvSha1 buf])
        else (Ok (HashCheckFailed, None), ar, log ++ [EvSha1 buf])
    | None =>
        (Throw "TypeError: Cannot read properties of undefined (reading 'toString')",
         ar, log ++ [EvSha1 buf])
    end
  else (Ok (Success, Some buf), ar, log).
Proof.
  unfold load_sha, has_sha1.
  destruct (Z.land (HashType h) EChunkHashFlags.Sha1 =? EChunkHashFlags.Sha1);
    [|reflexivity].
  unfold sha1, bind, emit, ret. destruct (SHAHash h) as [d|]; [|reflexivity].
  now destruct (String.eqb (sha1_hex_upper buf) (FSHAHash_toString d)).
Qed.

Lemma load_verify_run h lazy buf ar log :
  load_verify h lazy buf ar log =
  if lazy then (Ok (Success, Some buf), ar, log)
  else if has_rolling h then
    if String.eqb (toHex (GetHashForDataSet buf)) (toHex (RollingHash h))
    then load_sha h buf ar (log ++ [EvRollingHash buf])
    else (Ok (HashCheckFailed, None), ar, log ++ [EvRollingHash buf])
  else load_sha h buf ar log.
Proof.
  unfold load_verify, has_rolling. destruct lazy; [reflexivity|]. cbn [negb].
  destruct (Z.land (HashType h) EChunkHashFlags.RollingPoly64
            =? EChunkHashFlags.RollingPoly64); [|reflexivity].
  unfold rolling_hash, bind, emit, ret.
  now destruct (String.eqb (toHex (GetHashForDataSet buf)) (toHex (RollingHash h))).
Qed.

Lemma load_run h lazy ar log :
  load h lazy ar log =
  match load_payload h lazy ar log with
  | (Ok (inl status), ar', log') => (Ok (status, None), ar', log')
  | (Ok (inr buf), ar', log') => load_verify h lazy buf ar' log'
  | (Throw e, ar', log') => (Throw e, ar', log')
  end.
Proof.
  unfold load, bind. destruct (load_payload h lazy ar log) as [[[[st|buf]|e] ar'] log'];
    reflexivity.
Qed.
End Load.

(** ** Headers built by the constructor *)

Section Decoded.
Context `{Env}.
Import FChunkHeader.

Lemma decoded_cases lazy h :
  decoded lazy h -> h = zeroed \/ exists ar, h = Layout.fields lazy ar.
Proof.
  intros (ar & log & b & ar' & log' & E).
  destruct (new_run lazy ar log) as (ar2 & E2 & _).
  rewrite E2 in E. injection E as Eh _ _ _.
  destruct (Layout.accepted ar); [right; now exists ar | now left].
Qed.

Lemma decoded_Guid lazy h : decoded lazy h -> exists g, Guid h = Some g.
Proof.
  intros D. destruct (decoded_cases _ _ D) as [->|[ar ->]]; eexists; reflexivity.
Qed.

Lemma decoded_DataSizeCompressed lazy h : decoded lazy h -> 0 <= DataSizeCompressed h.
Proof.
  intros D. destruct (decoded_cases _ _ D) as [->|[ar ->]]; simpl; [lia|].
  apply le_to_Z_nonneg.
Qed.

Lemma decoded_SHAHash lazy h :
  decoded lazy h -> has_sha1 h = true -> exists d, SHAHash h = Some d.
Proof.
  intros D. destruct (decoded_cases _ _ D) as [->|[ar ->]].
  - intros _. eexists; reflexivity.
  - unfold has_sha1. simpl.
    destruct ((2 <=? Layout.version ar) && negb lazy).
    + intros _. eexists; reflexivity.
    + discriminate.
Qed.
End Decoded.

(** * The claims *)

Section HeaderClaims.
Context `{Env}.
Import FChunkHeader.

(** When the constructor rejects its input. *)
Lemma accepted_false_iff ar :
  Layout.accepted ar = false <->
  size_left ar < 41
  \/ Layout.magic ar <> MAGIC
  \/ (2 <= Layout.version ar /\ size_left ar < 62)
  \/ (3 <= Layout.version ar /\ size_left ar < 66).
Proof.
  unfold Layout.accepted.
  destruct (Z.leb_spec 41 (size_left ar)); destruct (Z.eqb_spec (Layout.magic ar) MAGIC);
    destruct (Z.ltb_spec (Layout.version ar) 2); destruct (Z.ltb_spec (Layout.version ar) 3);
    destruct (Z.leb_spec 62 (size_left ar)); destruct (Z.leb_spec 66 (size_left ar));
    cbn [andb orb]; split; intros; try discriminate; try reflexivity; try lia;
    intuition lia.
Qed.

(** C3. The constructor always returns.  Decoding fails exactly when fewer
    than 41 bytes remain, the magic codeword is wrong, or the bytes run out
    before the field set of the declared version (so that the consumed
    byte count differs from the expected one); and whenever it fails,
    every field holds its default: version [Latest], the header size of
    [Latest], the zero (invalid) GUID, compressed size 0, uncompressed
    size 1 MiB, storage [None], hash type rolling-only, rolling hash 0 and
    the zero digest. *)
Theorem failed_decode_resets_every_field (lazy : bool) (ar : FArchive) (log : list event) :
  exists h b ar',
    new lazy ar log = (Ok (h, b), ar', log)
    /\ (b = false <->
        size_left ar < 41
        \/ Layout.magic ar <> MAGIC
        \/ (2 <= Layout.version ar /\ size_left ar < 62)
        \/ (3 <= Layout.version ar /\ size_left ar < 66))
    /\ (b = false ->
        h = {| Version := EChunkVersion_Latest;
               HeaderSize := ChunkHeaderVersionSizes EChunkVersion_Latest;
               Guid := Some FGuid_zero;
               DataSizeCompressed := 0;
               DataSizeUncompressed := 1024 * 1024;
               StoredAs := EChunkStorageFlags.None;
               HashType := EChunkHashFlags.RollingPoly64;
               RollingHash := 0;
               SHAHash := Some FSHAHash_zero |}
        /\ FGuid_isValid FGuid_zero = false).
Proof.
  destruct (new_run lazy ar log) as (ar' & E & _).
  eexists _, _, ar'. split; [exact E|]. split.
  - apply accepted_false_iff.
  - intros ->. split; reflexivity.
Qed.

(** C5. After a successful decode the cursor stands at the position where
    the decode started plus the decoded [HeaderSize], whatever the version
    and whether the hash fields were read or skipped. *)
Theorem cursor_after_successful_decode
    (lazy : bool) (ar : FArchive) (log : list event)
    (h : t) (ar' : FArchive) (log' : list event) :
  new lazy ar log = (Ok (h, true), ar', log') ->
  Z.of_N (ar_offset ar') = Z.of_N (ar_offset ar) + HeaderSize h
  /\ ar_data ar' = ar_data ar.
Proof.
  intros E. destruct (new_run lazy ar log) as (ar2 & E2 & Hd & Ho).
  rewrite E2 in E. injection E as Eh Eb Ea _. subst ar2.
  rewrite Eb in Eh. subst h. split; [|exact Hd].
  rewrite (Ho Eb). cbn [HeaderSize Layout.fields].
  pose proof (le_to_Z_nonneg (slice_at ar 8 4)). unfold Layout.header_size. lia.
Qed.
End HeaderClaims.

Lemma failed_decode_resets_every_field_witness :
  exists ar',
    FChunkHeader.new (H := Demo.env Demo.no_net) false
      (FArchive_new Demo.container_bad_magic) []
    = (Ok (FChunkHeader.zeroed (H := Demo.env Demo.no_net), false), ar', []).
Proof.
  destruct (failed_decode_resets_every_field (H := Demo.env Demo.no_net) false
              (FArchive_new Demo.container_bad_magic) [])
    as (h & b & ar' & E & Hiff & Hreset).
  assert (Hb : b = false).
  { apply Hiff. right. left. vm_compute. discriminate. }
  destruct (Hreset Hb) as [Hh _]. subst h b. exists ar'. exact E.
Defined.

Lemma cursor_after_successful_decode_witness :
  FChunkHeader.new (H := Demo.env Demo.no_net) false (FArchive_new Demo.container_v1) []
  = (Ok (Demo.header_v1, true), Demo.archive_v1_payload, [])
  /\ (Z.of_N (ar_offset Demo.archive_v1_payload)
      = Z.of_N (ar_offset (FArchive_new Demo.container_v1))
        + FChunkHeader.HeaderSize Demo.header_v1
      /\ ar_data Demo.archive_v1_payload = ar_data (FArchive_new Demo.container_v1)).
Proof.
  split; [reflexivity|].
  apply (cursor_after_successful_decode (H := Demo.env Demo.no_net) false
           (FArchive_new Demo.container_v1) [] Demo.header_v1
           Demo.archive_v1_payload []).
  reflexivity.
Defined.


Section LoadClaims.
Context `{Env}.
Import FChunkHeader.

Lemma payload_reads_app l1 l2 :
  payload_reads (l1 ++ l2) = payload_reads l1 ++ payload_reads l2.
Proof. apply omap_app. Qed.

Lemma hash_events_app l1 l2 :
  filter is_hash_event (l1 ++ l2) = filter is_hash_event l1 ++ filter is_hash_event l2.
Proof. apply filter_app. Qed.

(** Splits on every test and option that the run of [load] depends on. *)
Ltac split_load :=
  repeat match goal with
         | |- context [if ?b then _ else _] => destruct b eqn:?
         | |- context [match ?o with Some _ => _ | None => _ end] => destruct o eqn:?
         end.

Lemma load_guards h lazy ar log g :
  Guid h = Some g -> 0 <= DataSizeCompressed h ->
  load h lazy ar log =
  if negb (FGuid_isValid g) then (Ok (CorruptHeader, None), ar, log)
  else if negb lazy && (HashType h =? EChunkHashFlags.None)
  then (Ok (MissingHashInfo, None), ar, log)
  else if size_left ar <? DataSizeCompressed h
  then (Ok (IncorrectFileSize, None), ar, log)
  else if encrypted h then (Ok (UnsupportedStorage, None), ar, log)
  else (x <- load_decompress h (slice_at ar 0 (DataSizeCompressed h)) ;;
        match x with
        | inl status => ret (status, None)
        | inr buf => load_verify h lazy buf
        end)
         (advance ar (DataSizeCompressed h))
         (log ++ [EvArchiveRead (DataSizeCompressed h)]).
Proof.
  intros Hg Hn. unfold load. unfold bind at 1.
  rewrite (load_payload_run h lazy ar log g Hg Hn).
  destruct (negb (FGuid_isValid g)); [reflexivity|].
  destruct (negb lazy && (HashType h =? EChunkHashFlags.None)); [reflexivity|].
  destruct (size_left ar <? DataSizeCompressed h); [reflexivity|].
  destruct (encrypted h); reflexivity.
Qed.

(** C4. [load] decides its result in order, the first matching case
    winning: [CorruptHeader] for an invalid GUID; else [MissingHashInfo] when
    verification is enabled and the hash type is [None]; else
    [IncorrectFileSize] when [DataSizeCompressed] exceeds the bytes left;
    else [UnsupportedStorage] when the encrypted flag is set.  In these four
    cases the cursor has not moved and nothing was read.  Otherwise exactly
    [DataSizeCompressed] bytes are read, once, and [load] goes on with
    them. *)
Theorem load_result_taxonomy
    (lazy0 : bool) (h : t) (lazy : bool) (ar : FArchive) (log : list event) :
  decoded lazy0 h ->
  exists g,
    Guid h = Some g
    /\ let r := load h lazy ar log in
       if negb (FGuid_isValid g) then r = (Ok (CorruptHeader, None), ar, log)
       else if negb lazy && (HashType h =? EChunkHashFlags.None)
       then r = (Ok (MissingHashInfo, None), ar, log)
       else if size_left ar <? DataSizeCompressed h
       then r = (Ok (IncorrectFileSize, None), ar, log)
       else if encrypted h then r = (Ok (UnsupportedStorage, None), ar, log)
       else
         r = (x <- load_decompress h (slice_at ar 0 (DataSizeCompressed h)) ;;
              match x with
              | inl status => ret (status, None)
              | inr buf => load_verify h lazy buf
              end)
               (advance ar (DataSizeCompressed h))
               (log ++ [EvArchiveRead (DataSizeCompressed h)])
         /\ Z.of_nat (length (slice_at ar 0 (DataSizeCompressed h))) = DataSizeCompressed h
         /\ state_of r = advance ar (DataSizeCompressed h)
         /\ payload_reads (log_of r) = payload_reads log ++ [DataSizeCompressed h].
Proof.
  intros D. destruct (decoded_Guid _ _ D) as [g Hg].
  pose proof (decoded_DataSizeCompressed _ _ D) as Hn.
  exists g. split; [exact Hg|]. cbv zeta.
  rewrite (load_guards h lazy ar log g Hg Hn).
  destruct (negb (FGuid_isValid g)); [reflexivity|].
  destruct (negb lazy && (HashType h =? EChunkHashFlags.None)); [reflexivity|].
  destruct (Z.ltb_spec (size_left ar) (DataSizeCompressed h)) as [Hlt|Hge]; [reflexivity|].
  destruct (encrypted h); [reflexivity|].
  split; [reflexivity|]. split; [apply slice_at_length; lia|].
  unfold bind, ret. rewrite load_decompress_run.
  unfold state_of, log_of.
  split_load; cbv beta iota; rewrite ?load_verify_run, ?load_sha_run;
    split_load; cbn [fst snd]; (split; [reflexivity|]);
    rewrite <- ?app_assoc, !payload_reads_app; cbn; now rewrite ?app_nil_r.
Qed.

(** C2, as amended.  When [load] returns [Success] it returns a buffer; its
    length is [DataSizeUncompressed] when the compressed flag is set and
    [DataSizeCompressed] when it is not. *)
Theorem success_payload_length
    (lazy0 : bool) (h : t) (lazy : bool) (ar : FArchive) (log : list event)
    (ob : option bytes) (ar' : FArchive) (log' : list event) :
  decoded lazy0 h ->
  load h lazy ar log = (Ok (Success, ob), ar', log') ->
  exists buf,
    ob = Some buf
    /\ Z.of_nat (length buf)
       = if compressed h then DataSizeUncompressed h else DataSizeCompressed h.
Proof.
  intros D. destruct (decoded_Guid _ _ D) as [g Hg].
  pose proof (decoded_DataSizeCompressed _ _ D) as Hn.
  rewrite (load_guards h lazy ar log g Hg Hn).
  unfold bind, ret. rewrite load_decompress_run.
  split_load; cbv beta iota; rewrite ?load_verify_run, ?load_sha_run;
    split_load; intros E; try discriminate; injection E as <- _ _;
    (eexists; split; [reflexivity|]).
  all: first [ now apply Z.eqb_eq
             | apply slice_at_length; [lia|lia|];
               match goal with
               | Hlt : (size_left _ <? _) = false |- _ =>
                   apply Z.ltb_ge in Hlt; lia
               end ].
Qed.

(** C1, as amended.  For a header decoded with verification enabled whose
    hash type has both flags, once [load] has the final payload [buf]: the
    rolling hash of [buf] is always computed and compared; the SHA-1 digest
    of [buf] is computed and compared exactly when the rolling hash matched;
    a mismatch in either one gives [HashCheckFailed], and [Success] needs
    both to match. *)
Theorem both_flags_checks_in_order
    (h : t) (ar : FArchive) (log : list event)
    (buf : bytes) (ar' : FArchive) (log' : list event) :
  decoded false h ->
  has_rolling h = true ->
  has_sha1 h = true ->
  load_payload h false ar log = (Ok (inr buf), ar', log') ->
  exists digest,
    SHAHash h = Some digest
    /\ load h false ar log =
       if negb (String.eqb (toHex (GetHashForDataSet buf)) (toHex (RollingHash h)))
       then (Ok (HashCheckFailed, None), ar', log' ++ [EvRollingHash buf])
       else if negb (String.eqb (sha1_hex_upper buf) (FSHAHash_toString digest))
       then (Ok (HashCheckFailed, None), ar', log' ++ [EvRollingHash buf; EvSha1 buf])
       else (Ok (Success, Some buf), ar', log' ++ [EvRollingHash buf; EvSha1 buf]).
Proof.
  intros D Hr Hs Hp. destruct (decoded_SHAHash _ _ D Hs) as [digest Hd].
  exists digest. split; [exact Hd|].
  rewrite load_run, Hp, load_verify_run, Hr, load_sha_run, Hs, Hd.
  destruct (String.eqb (toHex (GetHashForDataSet buf)) (toHex (RollingHash h)));
    cbn [negb]; [|reflexivity].
  rewrite <- app_assoc. cbn [app].
  now destruct (String.eqb (sha1_hex_upper buf) (FSHAHash_toString digest)).
Qed.

(** In lazy mode [load] computes no hash. *)
Lemma lazy_load_no_hash lazy0 h ar log :
  decoded lazy0 h ->
  filter is_hash_event (log_of (load h true ar log)) = filter is_hash_event log.
Proof.
  intros D. destruct (decoded_Guid _ _ D) as [g Hg].
  pose proof (decoded_DataSizeCompressed _ _ D) as Hn.
  rewrite (load_guards h true ar log g Hg Hn).
  unfold bind, ret. rewrite load_decompress_run. unfold log_of.
  split_load; cbv beta iota; rewrite ?load_verify_run; cbn [snd];
    rewrite <- ?app_assoc, ?hash_events_app; cbn; now rewrite ?app_nil_r.
Qed.

Lemma lazy_load_success h ar log buf ar' log' :
  load_payload h true ar log = (Ok (inr buf), ar', log') ->
  load h true ar log = (Ok (Success, Some buf), ar', log').
Proof. intros Hp. now rewrite load_run, Hp, load_verify_run. Qed.

(** A lazy decode leaves the hash fields at their defaults. *)
Lemma lazy_decode_skips_hash_fields ar log h b ar' log' :
  new true ar log = (Ok (h, b), ar', log') ->
  RollingHash h = 0
  /\ HashType h = EChunkHashFlags.RollingPoly64
  /\ (SHAHash h = None \/ SHAHash h = Some FSHAHash_zero).
Proof.
  intros E. destruct (new_run true ar log) as (ar2 & E2 & _).
  rewrite E2 in E. injection E as Eh _ _ _. subst h.
  destruct (Layout.accepted ar); cbn.
  - rewrite andb_false_r. auto.
  - auto.
Qed.
End LoadClaims.

(** ** Running [loadData] *)

Section Resolver.
Context `{Env}.
Import FileChunkPart.

(** The window [(Offset, Size)] cut from a payload: the bytes that exist,
    then zeros up to [Size]. *)
Lemma window_run {S} (data : bytes) (offset size : N) (s : S) log :
  (Z.of_N offset <= Z.of_nat (length data)) ->
  (result <- Buffer_alloc (Z.of_N size) ;;
   Buffer_copy data result 0 (Z.of_N offset) (Z.of_N offset + Z.of_N size)) s log
  = (Ok (take (N.to_nat size) (drop (N.to_nat offset) data)
         ++ replicate
              (N.to_nat size
               - length (take (N.to_nat size) (drop (N.to_nat offset) data)))
              zero_byte),
     s, log).
Proof.
  intros Hoff. unfold bind. rewrite Buffer_alloc_run by lia.
  rewrite Buffer_copy_run by lia. unfold copied_window.
  rewrite length_replicate.
  replace (Z.to_nat (Z.min (Z.of_N offset + Z.of_N size - Z.of_N offset)
                       (Z.of_nat (Z.to_nat (Z.of_N size)))))
    with (N.to_nat size) by lia.
  replace (Z.to_nat (Z.of_N offset)) with (N.to_nat offset) by lia.
  replace (Z.to_nat (Z.of_N size)) with (N.to_nat size) by lia.
  do 2 f_equal. f_equal.
  set (piece := take (N.to_nat size) (drop (N.to_nat offset) data)).
  now rewrite drop_replicate.
Qed.

Lemma window_out_of_range {S} (data : bytes) (offset size : N) (s : S) log :
  (Z.of_nat (length data) < Z.of_N offset) ->
  (result <- Buffer_alloc (Z.of_N size) ;;
   Buffer_copy data result 0 (Z.of_N offset) (Z.of_N offset + Z.of_N size)) s log
  = (Throw "RangeError: The value of 'sourceStart' is out of range", s, log).
Proof.
  intros Hoff. unfold bind. rewrite Buffer_alloc_run by lia.
  unfold Buffer_copy. change (0 <? 0) with false. cbv iota.
  destruct (Z.ltb_spec (Z.of_N offset) 0) as [?|_]; [lia|].
  destruct (Z.ltb_spec (Z.of_nat (length data)) (Z.of_N offset)) as [_|?]; [|lia].
  reflexivity.
Qed.

Lemma loadData_run this fs log :
  loadData this fs log =
  match fetch_payload this fs log with
  | (Ok data, fs', log') =>
      (result <- Buffer_alloc (Z.of_N (Size this)) ;;
       Buffer_copy data result 0 (Z.of_N (Offset this))
                   (Z.of_N (Offset this) + Z.of_N (Size this))) fs' log'
  | (Throw e, fs', log') => (Throw e, fs', log')
  end.
Proof.
  unfold loadData. unfold bind at 1.
  destruct (fetch_payload this fs log) as [[[data|e] fs'] log']; reflexivity.
Qed.

Lemma fetch_hit this fs log d data :
  cacheDirectory (_options this) = Some d ->
  fs !! join d (Filename this) = Some data ->
  fetch_payload this fs log
  = load_cached this (join d (Filename this)) fs
      (log ++ [EvExists (join d (Filename this))]).
Proof.
  intros Hd Hf. unfold fetch_payload. rewrite Hd.
  unfold fs_existsSync, bind, emit, get, ret. rewrite Hf.
  rewrite bool_decide_eq_true_2 by (now eexists). reflexivity.
Qed.

Lemma fetch_miss this fs log d :
  cacheDirectory (_options this) = Some d ->
  fs !! join d (Filename this) = None ->
  fetch_payload this fs log
  = load_remote this (Some (join d (Filename this))) fs
      (log ++ [EvExists (join d (Filename this))]).
Proof.
  intros Hd Hf. unfold fetch_payload. rewrite Hd.
  unfold fs_existsSync, bind, emit, get, ret. rewrite Hf.
  rewrite bool_decide_eq_false_2; [reflexivity|].
  intros [x Hx]. discriminate.
Qed.

Lemma load_cached_run this p fs log data :
  fs !! p = Some data ->
  load_cached this p fs log =
  if lazy (_options this) then (Ok data, fs, log ++ [EvReadFile p])
  else if negb (String.eqb (toHex (GetHashForDataSet data)) (Hash this)) then
    (Throw ("Chunk '" +:+ Filename this +:+ "' is corrupted: Hash mismatch ("
            +:+ toHex (GetHashForDataSet data) +:+ " != " +:+ Hash this +:+ ")"),
     fs, log ++ [EvReadFile p; EvRollingHash data])
  else if negb (bool_decide (Some (sha1_hex_upper data) = Sha this)) then
    (Throw ("Chunk '" +:+ Filename this +:+ "' is corrupted: Sha mismatch ("
            +:+ sha1_hex_upper data +:+ " != " +:+ nullable_toString (Sha this) +:+ ")"),
     fs, log ++ [EvReadFile p; EvRollingHash data; EvSha1 data])
  else (Ok data, fs, log ++ [EvReadFile p; EvRollingHash data; EvSha1 data]).
Proof.
  intros Hf. unfold load_cached, fs_readFileSync, bind, emit, get, ret. rewrite Hf.
  destruct (lazy (_options this)); cbn [negb]; [reflexivity|].
  unfold FChunkHeader.rolling_hash, FChunkHeader.sha1, bind, emit, ret, throw.
  destruct (String.eqb (toHex (GetHashForDataSet data)) (Hash this)); cbn [negb].
  - rewrite <- !app_assoc. cbn [app].
    now destruct (bool_decide (Some (sha1_hex_upper data) = Sha this)).
  - now rewrite <- !app_assoc.
Qed.

(** A download that succeeds with a cache path has written the payload
    there, and nothing else. *)
Lemma load_remote_writes this p fs log data fs1 log1 :
  load_remote this (Some p) fs log = (Ok data, fs1, log1) ->
  fs1 = <[p := data]> fs.
Proof.
  unfold load_remote. destruct (chunkBaseUri (_options this)) as [base|]; [|discriminate].
  unfold bind at 1. unfold emit at 1.
  destruct (request _) as [[status content]|]; [|discriminate].
  destruct (negb (status =? 200)); [discriminate|].
  unfold bind at 1.
  match goal with
  | |- context [with_archive ?a ?m ?s ?l] =>
      change (with_archive a m s l) with (let '(r, _, log') := m a l in (r, s, log'));
      destruct (m a l) as [[[[st ob]|e] ar2] log2]
  end; [|discriminate].
  destruct st; try discriminate. destruct ob as [buf|]; [|discriminate].
  unfold bind, fs_writeFileSync, bind, emit, get, put, ret.
  intros E. injection E as <- <- _. reflexivity.
Qed.

(** The slicing step does not touch the file system or the log, and its
    result depends on the payload, the offset and the size only. *)
Lemma window_pure (data : bytes) (offset size : N) :
  exists r, forall (fs : FS) log,
    (result <- Buffer_alloc (Z.of_N size) ;;
     Buffer_copy data result 0 (Z.of_N offset) (Z.of_N offset + Z.of_N size)) fs log
    = (r, fs, log).
Proof.
  destruct (Z.le_gt_cases (Z.of_N offset) (Z.of_nat (length data))) as [Hle|Hgt].
  - eexists. intros fs log. now apply window_run.
  - eexists. intros fs log. apply window_out_of_range. lia.
Qed.

(** C9. When [Offset + Size] is at most the length of the payload,
    [loadData] returns the [Size] bytes of the payload that start at
    [Offset]: the whole payload for offset 0 and the full length, the empty
    buffer for size 0. *)
Theorem loadData_returns_requested_window
    (this : t) (fs : FS) (log : list event)
    (data : bytes) (fs' : FS) (log' : list event) :
  fetch_payload this fs log = (Ok data, fs', log') ->
  Z.of_N (Offset this) + Z.of_N (Size this) <= Z.of_nat (length data) ->
  loadData this fs log
  = (Ok (take (N.to_nat (Size this)) (drop (N.to_nat (Offset this)) data)), fs', log')
  /\ length (take (N.to_nat (Size this)) (drop (N.to_nat (Offset this)) data))
     = N.to_nat (Size this)
  /\ (Offset this = 0%N -> N.to_nat (Size this) = length data ->
      take (N.to_nat (Size this)) (drop (N.to_nat (Offset this)) data) = data)
  /\ (Size this = 0%N ->
      take (N.to_nat (Size this)) (drop (N.to_nat (Offset this)) data) = []).
Proof.
  intros Hf Hle.
  assert (Hlen : length (take (N.to_nat (Size this)) (drop (N.to_nat (Offset this)) data))
                 = N.to_nat (Size this)).
  { rewrite length_take, length_drop. lia. }
  split; [|split; [exact Hlen|split]].
  - rewrite loadData_run, Hf, window_run by lia.
    rewrite Hlen, Nat.sub_diag. cbn [replicate]. now rewrite app_nil_r.
  - intros -> ->. cbn [N.to_nat drop]. apply firstn_all.
  - intros ->. reflexivity.
Qed.

(** C10, as amended.  When [Offset] is within the payload and
    [Offset + Size] is past its end, [loadData] returns [Size] bytes: the
    payload from [Offset] to its end, then zeros. *)
Theorem loadData_pads_truncated_window
    (this : t) (fs : FS) (log : list event)
    (data : bytes) (fs' : FS) (log' : list event) :
  fetch_payload this fs log = (Ok data, fs', log') ->
  Z.of_N (Offset this) <= Z.of_nat (length data) ->
  Z.of_nat (length data) < Z.of_N (Offset this) + Z.of_N (Size this) ->
  loadData this fs log
  = (Ok (drop (N.to_nat (Offset this)) data
         ++ replicate (N.to_nat (Offset this) + N.to_nat (Size this) - length data)
              zero_byte),
     fs', log')
  /\ length (drop (N.to_nat (Offset this)) data
             ++ replicate (N.to_nat (Offset this) + N.to_nat (Size this) - length data)
                  zero_byte)
     = N.to_nat (Size this).
Proof.
  intros Hf Hle Hgt. split.
  - rewrite loadData_run, Hf, window_run by lia.
    rewrite take_ge by (rewrite length_drop; lia).
    rewrite length_drop.
    replace (N.to_nat (Size this) - (length data - N.to_nat (Offset this)))%nat
      with (N.to_nat (Offset this) + N.to_nat (Size this) - length data)%nat by lia.
    reflexivity.
  - rewrite length_app, length_drop, length_replicate. lia.
Qed.

(** When [Offset] is past the end of the payload the copy throws. *)
Lemma loadData_offset_past_end this fs log data fs' log' :
  fetch_payload this fs log = (Ok data, fs', log') ->
  Z.of_nat (length data) < Z.of_N (Offset this) ->
  loadData this fs log
  = (Throw "RangeError: The value of 'sourceStart' is out of range", fs', log').
Proof.
  intros Hf Hgt. now rewrite loadData_run, Hf, window_out_of_range.
Qed.

(** C8. On a cache hit with verification enabled, a rolling hash of the
    cached bytes that differs from the expected [Hash] makes [loadData] throw
    the "Hash mismatch" error, and otherwise a digest that differs from the
    expected [Sha] makes it throw the "Sha mismatch" error; the message
    carries the computed and the expected value, and the only calls made are
    the file test, the file read and the hash computations: no request. *)
Theorem corrupted_cache_entry_throws
    (this : t) (fs : FS) (log : list event) (d : string) (data : bytes) :
  cacheDirectory (_options this) = Some d ->
  lazy (_options this) = false ->
  fs !! join d (Filename this) = Some data ->
  (toHex (GetHashForDataSet data) <> Hash this ->
   loadData this fs log
   = (Throw ("Chunk '" +:+ Filename this +:+ "' is corrupted: Hash mismatch ("
             +:+ toHex (GetHashForDataSet data) +:+ " != " +:+ Hash this +:+ ")"),
      fs,
      log ++ [EvExists (join d (Filename this)); EvReadFile (join d (Filename this));
              EvRollingHash data]))
  /\ (toHex (GetHashForDataSet data) = Hash this ->
      Some (sha1_hex_upper data) <> Sha this ->
      loadData this fs log
      = (Throw ("Chunk '" +:+ Filename this +:+ "' is corrupted: Sha mismatch ("
                +:+ sha1_hex_upper data +:+ " != " +:+ nullable_toString (Sha this)
                +:+ ")"),
         fs,
         log ++ [EvExists (join d (Filename this)); EvReadFile (join d (Filename this));
                 EvRollingHash data; EvSha1 data])).
Proof.
  intros Hd Hlazy Hf.
  rewrite loadData_run, (fetch_hit this fs log d data Hd Hf).
  rewrite (load_cached_run this _ fs _ data Hf), Hlazy.
  split.
  - intros Hne. apply String.eqb_neq in Hne. rewrite Hne. cbn [negb].
    now rewrite <- app_assoc.
  - intros He Hne. apply String.eqb_eq in He. rewrite He. cbn [negb].
    rewrite bool_decide_eq_false_2 by exact Hne. cbn [negb].
    now rewrite <- app_assoc.
Qed.

(** C7, as amended.  After a fetch that missed the cache, downloaded the
    chunk and returned [r1], the payload is in the cache; and when
    verification is disabled, or the rolling hash and the digest of that
    payload are the ones the reference expects, a second fetch returns [r1]
    from the cache, without any request. *)
Theorem refetch_from_cache_is_identical
    (this : t) (fs : FS) (log : list event) (d : string)
    (r1 : bytes) (fs1 : FS) (log1 : list event) :
  cacheDirectory (_options this) = Some d ->
  fs !! join d (Filename this) = None ->
  loadData this fs log = (Ok r1, fs1, log1) ->
  (forall data,
      fs1 !! join d (Filename this) = Some data ->
      lazy (_options this) = true
      \/ (toHex (GetHashForDataSet data) = Hash this
          /\ Sha this = Some (sha1_hex_upper data))) ->
  is_Some (fs1 !! join d (Filename this))
  /\ exists log2,
      loadData this fs1 log1 = (Ok r1, fs1, log2)
      /\ filter is_request_event log2 = filter is_request_event log1.
Proof.
  intros Hd Hnone. rewrite loadData_run, (fetch_miss this fs log d Hd Hnone).
  destruct (load_remote this _ fs _) as [[[data|e] fs'] log'] eqn:Hr; [|discriminate].
  apply load_remote_writes in Hr. subst fs'.
  destruct (window_pure data (Offset this) (Size this)) as [r Hw].
  rewrite Hw. intros E Hok. injection E as -> <- <-.
  assert (Hf : (<[join d (Filename this) := data]> fs : FS) !! join d (Filename this)
               = Some data) by apply lookup_insert_eq.
  split; [now exists data|].
  specialize (Hok data Hf).
  rewrite loadData_run, (fetch_hit this _ log' d data Hd Hf).
  rewrite (load_cached_run this _ _ _ data Hf).
  destruct (lazy (_options this)) eqn:Hlazy.
  - rewrite Hw. eexists. split; [reflexivity|].
    rewrite <- app_assoc, filter_app. cbn. apply app_nil_r.
  - destruct Hok as [?|[Hh Hs]]; [discriminate|].
    apply String.eqb_eq in Hh. rewrite Hh. cbn [negb].
    rewrite bool_decide_eq_true_2 by (now rewrite Hs). cbn [negb].
    rewrite Hw. eexists. split; [reflexivity|].
    rewrite <- app_assoc, filter_app. cbn. apply app_nil_r.
Qed.

(** C6.  With verification disabled no integrity check runs: the
    constructor leaves the rolling hash, the digest and the hash type at
    their defaults instead of decoding them; [load] computes no hash and
    returns [Success] with whatever payload it obtained; and a cache hit
    returns the cached bytes after the file test and the file read only. *)
Theorem lazy_mode_runs_no_integrity_check :
  (forall ar log h b ar' log',
      FChunkHeader.new true ar log = (Ok (h, b), ar', log') ->
      FChunkHeader.RollingHash h = 0
      /\ FChunkHeader.HashType h = EChunkHashFlags.RollingPoly64
      /\ (FChunkHeader.SHAHash h = None \/ FChunkHeader.SHAHash h = Some FSHAHash_zero))
  /\ (forall lazy0 h ar log,
        decoded lazy0 h ->
        filter is_hash_event (log_of (FChunkHeader.load h true ar log))
        = filter is_hash_event log
        /\ forall buf ar' log',
            FChunkHeader.load_payload h true ar log = (Ok (inr buf), ar', log') ->
            FChunkHeader.load h true ar log = (Ok (Success, Some buf), ar', log'))
  /\ (forall this fs log d data,
        cacheDirectory (_options this) = Some d ->
        lazy (_options this) = true ->
        fs !! join d (Filename this) = Some data ->
        fetch_payload this fs log
        = (Ok data, fs,
           log ++ [EvExists (join d (Filename this)); EvReadFile (join d (Filename this))])
        /\ filter is_hash_event (log_of (loadData this fs log))
           = filter is_hash_event log).
Proof.
  split; [|split].
  - exact lazy_decode_skips_hash_fields.
  - intros lazy0 h ar log D. split.
    + now apply (lazy_load_no_hash lazy0).
    + intros buf ar' log'. apply lazy_load_success.
  - intros this fs log d data Hd Hlazy Hf.
    assert (E : fetch_payload this fs log
                = (Ok data, fs,
                   log ++ [EvExists (join d (Filename this));
                           EvReadFile (join d (Filename this))])).
    { rewrite (fetch_hit this fs log d data Hd Hf).
      rewrite (load_cached_run this _ fs _ data Hf), Hlazy.
      now rewrite <- app_assoc. }
    split; [exact E|].
    rewrite loadData_run, E.
    destruct (window_pure data (Offset this) (Size this)) as [r Hw]. rewrite Hw.
    unfold log_of. cbn [snd]. rewrite filter_app. cbn. apply app_nil_r.
Qed.
End Resolver.

(** * The claims on concrete containers *)

Section Concrete.
Import Demo.
Import Byte.

Lemma decoded_header_v1 : decoded (H := env no_net) false header_v1.
Proof. exists (FArchive_new container_v1), [], true, archive_v1_payload, []. reflexivity. Defined.

Lemma decoded_header_v3_good : decoded (H := env no_net) false header_v3_good.
Proof.
  exists (FArchive_new container_v3_good), [], true, archive_v3_good, []. reflexivity.
Defined.

Lemma decoded_header_v3_bad_rolling : decoded (H := env no_net) false header_v3_bad_rolling.
Proof.
  exists (FArchive_new container_v3_bad_rolling), [], true, archive_v3_bad_rolling, [].
  reflexivity.
Defined.

Lemma decoded_header_v3_compressed : decoded (H := env no_net) false header_v3_compressed.
Proof.
  exists (FArchive_new container_v3_compressed), [], true, archive_v3_compressed, [].
  reflexivity.
Defined.

Lemma decoded_header_v3_lazy : decoded (H := env no_net) true header_v3_lazy.
Proof.
  exists (FArchive_new container_v3_bad_both), [], true, archive_v3_lazy, []. reflexivity.
Defined.

(** C1, the claim as stated fails: the header has both flags and was decoded
    with verification enabled, [load] reaches the verification block with
    the payload [1; 2; 3], the stored rolling hash is wrong, and the SHA-1
    digest of the payload is never computed. *)
Lemma sha_check_skipped_after_rolling_mismatch :
  decoded (H := env no_net) false header_v3_bad_rolling
  /\ has_rolling header_v3_bad_rolling = true
  /\ has_sha1 header_v3_bad_rolling = true
  /\ FChunkHeader.load (H := env no_net) header_v3_bad_rolling false
       archive_v3_bad_rolling []
     = (Ok (HashCheckFailed, None), advance archive_v3_bad_rolling 3,
        [EvArchiveRead 3; EvRollingHash [x01; x02; x03]])
  /\ ~ both_checks_dispatched (H := env no_net) header_v3_bad_rolling
         archive_v3_bad_rolling [].
Proof.
  split; [exact decoded_header_v3_bad_rolling|].
  split; [reflexivity|]. split; [reflexivity|]. split; [reflexivity|].
  intros Hc.
  destruct (Hc [x01; x02; x03] (advance archive_v3_bad_rolling 3) [EvArchiveRead 3]
              eq_refl) as [_ Hin].
  vm_compute in Hin. destruct Hin as [E|[E|[]]]; discriminate E.
Qed.

Lemma both_flags_checks_in_order_witness :
  exists digest,
    FChunkHeader.SHAHash header_v3_good = Some digest
    /\ FChunkHeader.load (H := env no_net) header_v3_good false archive_v3_good [] =
       if negb (String.eqb (toHex (Env := env no_net)
                              (GetHashForDataSet (Env := env no_net) [x01; x02; x03]))
                           (toHex (Env := env no_net)
                              (FChunkHeader.RollingHash header_v3_good)))
       then (Ok (HashCheckFailed, None), advance archive_v3_good 3,
             [EvArchiveRead 3] ++ [EvRollingHash [x01; x02; x03]])
       else if negb (String.eqb (sha1_hex_upper (Env := env no_net) [x01; x02; x03])
                                (FSHAHash_toString (Env := env no_net) digest))
       then (Ok (HashCheckFailed, None), advance archive_v3_good 3,
             [EvArchiveRead 3] ++ [EvRollingHash [x01; x02; x03]; EvSha1 [x01; x02; x03]])
       else (Ok (Success, Some [x01; x02; x03]), advance archive_v3_good 3,
             [EvArchiveRead 3] ++ [EvRollingHash [x01; x02; x03]; EvSha1 [x01; x02; x03]]).
Proof.
  apply (both_flags_checks_in_order (H := env no_net) header_v3_good archive_v3_good []
           [x01; x02; x03] (advance archive_v3_good 3) [EvArchiveRead 3]).
  - exact decoded_header_v3_good.
  - reflexivity.
  - reflexivity.
  - reflexivity.
Defined.

(** C2, the claim as stated fails: an uncompressed version 1 chunk of three
    bytes loads to [Success] with a buffer of three bytes, while the header's
    uncompressed size is 1 MiB. *)
Lemma uncompressed_success_ignores_uncompressed_size :
  decoded (H := env no_net) false header_v1
  /\ FChunkHeader.load (H := env no_net) header_v1 false archive_v1_payload []
     = (Ok (Success, Some [x01; x02; x03]), advance archive_v1_payload 3,
        [EvArchiveRead 3; EvRollingHash [x01; x02; x03]])
  /\ Z.of_nat (length [x01; x02; x03]) <> FChunkHeader.DataSizeUncompressed header_v1.
Proof.
  split; [exact decoded_header_v1|]. split; [reflexivity|].
  cbn. discriminate.
Qed.

Lemma success_payload_length_witness :
  FChunkHeader.load (H := env no_net) header_v3_compressed false archive_v3_compressed []
  = (Ok (Success, Some [x01; x02; x03]), advance archive_v3_compressed 4,
     [EvArchiveRead 4; EvInflate [x78; x01; x02; x03];
      EvRollingHash [x01; x02; x03]; EvSha1 [x01; x02; x03]])
  /\ exists buf,
      Some [x01; x02; x03] = Some buf
      /\ Z.of_nat (length buf)
         = if compressed header_v3_compressed
           then FChunkHeader.DataSizeUncompressed header_v3_compressed
           else FChunkHeader.DataSizeCompressed header_v3_compressed.
Proof.
  split; [reflexivity|].
  apply (success_payload_length (H := env no_net) false header_v3_compressed false
           archive_v3_compressed [] (Some [x01; x02; x03])
           (advance archive_v3_compressed 4)
           [EvArchiveRead 4; EvInflate [x78; x01; x02; x03];
            EvRollingHash [x01; x02; x03]; EvSha1 [x01; x02; x03]]).
  - exact decoded_header_v3_compressed.
  - reflexivity.
Defined.

Lemma load_result_taxonomy_witness :
  exists g,
    FChunkHeader.Guid header_v1 = Some g
    /\ let r := FChunkHeader.load (H := env no_net) header_v1 false archive_v1_payload [] in
       if negb (FGuid_isValid g) then r = (Ok (CorruptHeader, None), archive_v1_payload, [])
       else if negb false && (FChunkHeader.HashType header_v1 =? EChunkHashFlags.None)
       then r = (Ok (MissingHashInfo, None), archive_v1_payload, [])
       else if size_left archive_v1_payload <? FChunkHeader.DataSizeCompressed header_v1
       then r = (Ok (IncorrectFileSize, None), archive_v1_payload, [])
       else if encrypted header_v1
       then r = (Ok (UnsupportedStorage, None), archive_v1_payload, [])
       else
         r = (x <- FChunkHeader.load_decompress (H := env no_net) header_v1
                     (slice_at archive_v1_payload 0
                        (FChunkHeader.DataSizeCompressed header_v1)) ;;
              match x with
              | inl status => ret (status, None)
              | inr buf => FChunkHeader.load_verify (H := env no_net) header_v1 false buf
              end)
               (advance archive_v1_payload (FChunkHeader.DataSizeCompressed header_v1))
               ([] ++ [EvArchiveRead (FChunkHeader.DataSizeCompressed header_v1)])
         /\ Z.of_nat (length (slice_at archive_v1_payload 0
                                (FChunkHeader.DataSizeCompressed header_v1)))
            = FChunkHeader.DataSizeCompressed header_v1
         /\ state_of r
            = advance archive_v1_payload (FChunkHeader.DataSizeCompressed header_v1)
         /\ payload_reads (log_of r)
            = payload_reads [] ++ [FChunkHeader.DataSizeCompressed header_v1].
Proof.
  apply (load_result_taxonomy (H := env no_net) false header_v1 false
           archive_v1_payload []).
  exact decoded_header_v1.
Defined.

(** In lazy mode a container whose two stored hashes are both wrong is
    decoded with default hash fields and loads to [Success]; a cached payload
    is returned after the file test and the file read only. *)
Lemma lazy_mode_runs_no_integrity_check_witness :
  (FChunkHeader.RollingHash header_v3_lazy = 0
   /\ FChunkHeader.HashType header_v3_lazy = EChunkHashFlags.RollingPoly64
   /\ (FChunkHeader.SHAHash header_v3_lazy = None
       \/ FChunkHeader.SHAHash header_v3_lazy = Some FSHAHash_zero))
  /\ (filter is_hash_event
        (log_of (FChunkHeader.load (H := env no_net) header_v3_lazy true
                   archive_v3_lazy []))
      = filter is_hash_event []
      /\ FChunkHeader.load (H := env no_net) header_v3_lazy true archive_v3_lazy []
         = (Ok (Success, Some [x01; x02; x03]), advance archive_v3_lazy 3,
            [EvArchiveRead 3]))
  /\ (FileChunkPart.fetch_payload (H := env no_net) (part true None 0 3) cached_fs []
      = (Ok [x01; x02; x03], cached_fs,
         [] ++ [EvExists cache_path; EvReadFile cache_path])
      /\ filter is_hash_event
           (log_of (FileChunkPart.loadData (H := env no_net) (part true None 0 3)
                      cached_fs []))
         = filter is_hash_event []).
Proof.
  destruct (lazy_mode_runs_no_integrity_check (H := env no_net)) as (A & B & C).
  split; [|split].
  - apply (A (FArchive_new container_v3_bad_both) [] header_v3_lazy true
             archive_v3_lazy []).
    reflexivity.
  - destruct (B true header_v3_lazy archive_v3_lazy [] decoded_header_v3_lazy)
      as [B1 B2].
    split; [exact B1|].
    apply (B2 [x01; x02; x03] (advance archive_v3_lazy 3) [EvArchiveRead 3]).
    reflexivity.
  - apply (C (part true None 0 3) cached_fs [] "cache" [x01; x02; x03]);
      reflexivity.
Defined.

(** C7, the claim as stated fails: the chunk store serves a version 1
    container whose stored rolling hash is right, the reference expects a
    digest that the payload does not have; the first fetch misses the cache,
    downloads, verifies the rolling hash only, caches and returns the three
    bytes; the second fetch finds the file and throws. *)
Lemma refetch_throws_on_unexpected_digest :
  empty_fs !! cache_path = None
  /\ FileChunkPart.loadData (H := env net_v1) (part false (Some "BAD") 0 3) empty_fs []
     = (Ok [x01; x02; x03], cached_fs,
        [EvExists cache_path; EvRequest "https://cdn/07/6_G1.chunk";
         EvArchiveRead 3; EvRollingHash [x01; x02; x03];
         EvWriteFile cache_path [x01; x02; x03]])
  /\ cached_fs !! cache_path = Some [x01; x02; x03]
  /\ result_of
       (FileChunkPart.loadData (H := env net_v1) (part false (Some "BAD") 0 3) cached_fs
          [EvExists cache_path; EvRequest "https://cdn/07/6_G1.chunk";
           EvArchiveRead 3; EvRollingHash [x01; x02; x03];
           EvWriteFile cache_path [x01; x02; x03]])
     = Throw "Chunk '6_G1.chunk' is corrupted: Sha mismatch (E != BAD)".
Proof. repeat split; vm_compute; reflexivity. Qed.

Lemma refetch_from_cache_is_identical_witness :
  is_Some (cached_fs !! cache_path)
  /\ exists log2,
      FileChunkPart.loadData (H := env net_v1) (part false (Some "E") 1 2) cached_fs
        [EvExists cache_path; EvRequest "https://cdn/07/6_G1.chunk";
         EvArchiveRead 3; EvRollingHash [x01; x02; x03];
         EvWriteFile cache_path [x01; x02; x03]]
      = (Ok [x02; x03], cached_fs, log2)
      /\ filter is_request_event log2
         = filter is_request_event
             [EvExists cache_path; EvRequest "https://cdn/07/6_G1.chunk";
              EvArchiveRead 3; EvRollingHash [x01; x02; x03];
              EvWriteFile cache_path [x01; x02; x03]].
Proof.
  apply (refetch_from_cache_is_identical (H := env net_v1) (part false (Some "E") 1 2)
           empty_fs [] "cache" [x02; x03] cached_fs
           [EvExists cache_path; EvRequest "https://cdn/07/6_G1.chunk";
            EvArchiveRead 3; EvRollingHash [x01; x02; x03];
            EvWriteFile cache_path [x01; x02; x03]]).
  - reflexivity.
  - vm_compute. reflexivity.
  - vm_compute. reflexivity.
  - intros data Hdata. right.
    assert (E : data = [x01; x02; x03]).
    { vm_compute in Hdata. now injection Hdata as <-. }
    subst data. split; vm_compute; reflexivity.
Defined.

Lemma corrupted_cache_entry_throws_witness :
  FileChunkPart.loadData (H := env no_net) (part false (Some "E") 0 3) corrupted_fs []
  = (Throw "Chunk '6_G1.chunk' is corrupted: Hash mismatch (12 != 6)", corrupted_fs,
     [EvExists cache_path; EvReadFile cache_path; EvRollingHash [x09; x09]])
  /\ FileChunkPart.loadData (H := env no_net) (part false (Some "BAD") 0 3) cached_fs []
     = (Throw "Chunk '6_G1.chunk' is corrupted: Sha mismatch (E != BAD)", cached_fs,
        [EvExists cache_path; EvReadFile cache_path;
         EvRollingHash [x01; x02; x03]; EvSha1 [x01; x02; x03]]).
Proof.
  split.
  - apply (corrupted_cache_entry_throws (H := env no_net) (part false (Some "E") 0 3)
             corrupted_fs [] "cache" [x09; x09]).
    + reflexivity.
    + reflexivity.
    + vm_compute. reflexivity.
    + vm_compute. discriminate.
  - apply (corrupted_cache_entry_throws (H := env no_net) (part false (Some "BAD") 0 3)
             cached_fs [] "cache" [x01; x02; x03]).
    + reflexivity.
    + reflexivity.
    + vm_compute. reflexivity.
    + vm_compute. reflexivity.
    + vm_compute. discriminate.
Defined.

Lemma loadData_returns_requested_window_witness :
  Z.of_N 1 + Z.of_N 2 <= Z.of_nat (length [x01; x02; x03])
  /\ FileChunkPart.loadData (H := env no_net) (part true None 1 2) cached_fs []
     = (Ok [x02; x03], cached_fs, [EvExists cache_path; EvReadFile cache_path]).
Proof.
  split; [vm_compute; discriminate|].
  apply (loadData_returns_requested_window (H := env no_net) (part true None 1 2)
           cached_fs [] [x01; x02; x03] cached_fs
           [EvExists cache_path; EvReadFile cache_path]).
  - vm_compute. reflexivity.
  - vm_compute. discriminate.
Defined.

(** C10, the claim as stated fails: the payload has three bytes, the
    reference asks for two bytes at offset five, and [loadData] throws. *)
Lemma offset_past_payload_end_throws :
  FileChunkPart.fetch_payload (H := env no_net) (part true None 5 2) cached_fs []
  = (Ok [x01; x02; x03], cached_fs, [EvExists cache_path; EvReadFile cache_path])
  /\ Z.of_nat (length [x01; x02; x03]) < Z.of_N 5 + Z.of_N 2
  /\ FileChunkPart.loadData (H := env no_net) (part true None 5 2) cached_fs []
     = (Throw "RangeError: The value of 'sourceStart' is out of range", cached_fs,
        [EvExists cache_path; EvReadFile cache_path]).
Proof. repeat split; vm_compute; reflexivity. Qed.

Lemma loadData_pads_truncated_window_witness :
  FileChunkPart.loadData (H := env no_net) (part true None 2 3) cached_fs []
  = (Ok [x03; x00; x00], cached_fs, [EvExists cache_path; EvReadFile cache_path])
  /\ length [x03; x00; x00] = N.to_nat 3.
Proof.
  apply (loadData_pads_truncated_window (H := env no_net) (part true None 2 3)
           cached_fs [] [x01; x02; x03] cached_fs
           [EvExists cache_path; EvReadFile cache_path]).
  - vm_compute. reflexivity.
  - vm_compute. discriminate.
  - vm_compute. reflexivity.
Defined.
End Concrete.

(** * Further properties of the header codec *)

Section MoreDecode.
Context `{Env}.
Import FChunkHeader.

Lemma new_final_adv lazy ar log :
  new lazy (advance ar 0) log
  = (Ok (if Layout.accepted ar then Layout.fields lazy ar else zeroed,
         Layout.accepted ar), decode_final ar, log).
Proof.
  unfold new, bind at 1 2. run_archive.
  replace (Z.of_nat (length (ar_data ar)) - (Z.of_N (ar_offset ar) + 0))
    with (size_left ar) by (unfold size_left; lia).
  rewrite sizes_Original, Z.geb_leb.
  unfold decode_final, decode_stop, Layout.accepted, Layout.fields.
  destruct (Z.leb_spec 41 (size_left ar)) as [H41|H41];
    destruct (Z.ltb_spec (size_left ar) 41) as [K41|K41]; try lia.
  2:{ unfold bind, ret. run_archive. cbn [andb]. reflexivity. }
  unfold FGuid_read, bind, ret.
  destruct lazy; run_archive; rewrite read_v2_run;
    cbn [Version set_StoredAs set_Guid set_DataSizeCompressed set_HeaderSize
         set_Version set_RollingHash];
    change (le_to_Z (slice_at ar 0 4)) with (Layout.magic ar);
    change (le_to_Z (slice_at ar (0 + 4) 4)) with (Layout.version ar);
    destruct (Z.eqb_spec (Layout.magic ar) MAGIC) as [Hm|Hm];
    destruct (Z.leb_spec 2 (Layout.version ar)) as [H2|H2];
    destruct (Z.leb_spec 62 (size_left ar)) as [H62|H62];
    destruct (Z.ltb_spec (size_left ar) 62) as [K62|K62]; try lia;
    cbn [andb orb negb];
    (first [ rewrite read_v3_run
           | rewrite read_v3_skip
               by (cbn [Version set_StoredAs set_Guid set_DataSizeCompressed
                        set_HeaderSize set_Version set_RollingHash set_HashType
                        set_SHAHash];
                   first [ reflexivity
                         | rewrite andb_true_l; apply Z.leb_gt; lia ]) ]);
    cbn [Version set_StoredAs set_Guid set_DataSizeCompressed set_HeaderSize
         set_Version set_RollingHash set_HashType set_SHAHash];
    destruct (Z.leb_spec 3 (Layout.version ar)) as [H3|H3];
    destruct (Z.leb_spec 66 (size_left ar)) as [H66|H66];
    destruct (Z.ltb_spec (Layout.version ar) 2) as [L2|L2];
    destruct (Z.ltb_spec (Layout.version ar) 3) as [L3|L3];
    try lia;
    cbn [andb orb negb]; run_archive;
    repeat match goal with
           | |- context [Z.eqb ?a ?b] =>
               first [ rewrite (proj2 (Z.eqb_eq a b)) by lia
                     | rewrite (proj2 (Z.eqb_neq a b)) by lia ]
           end;
    cbn [andb orb negb]; unfold Ar.seek;
    first
      [ reflexivity
      | f_equal; f_equal;
        cbn [ar_data advance HeaderSize set_StoredAs set_Guid set_DataSizeCompressed
             set_HeaderSize set_Version set_RollingHash set_HashType
             set_SHAHash set_DataSizeUncompressed];
        change (le_to_Z (slice_at ar (0 + 4 + 4) 4)) with (Layout.header_size ar);
        f_equal; lia ].
Qed.
End MoreDecode.

Section MoreDecodeTheorems.
Context `{Env}.
Import FChunkHeader.

Lemma new_final lazy ar log :
  new lazy ar log
  = (Ok (if Layout.accepted ar then Layout.fields lazy ar else zeroed,
         Layout.accepted ar), decode_final ar, log).
Proof.
  pose proof (new_final_adv lazy ar log) as P. now rewrite advance_0 in P.
Qed.

(** X1. The fields of an accepted header are the little-endian values found
    at fixed offsets from the start of the decode: version at 4, header size
    at 8, compressed size at 12, GUID at 16, storage flags at 40; the rolling
    hash at 32 when verification is enabled; the digest at 41 and the hash
    type at 61 when moreover the version is at least 2; the uncompressed size
    at 62 when the version is at least 3. *)
Theorem accepted_header_is_read_at_fixed_offsets
    (lazy : bool) (ar : FArchive) (log : list event)
    (h : t) (ar' : FArchive) (log' : list event) :
  new lazy ar log = (Ok (h, true), ar', log') ->
  le_to_Z (slice_at ar 0 4) = MAGIC
  /\ Version h = le_to_Z (slice_at ar 4 4)
  /\ HeaderSize h = le_to_Z (slice_at ar 8 4)
  /\ DataSizeCompressed h = le_to_Z (slice_at ar 12 4)
  /\ Guid h = Some (slice_at ar 16 16)
  /\ StoredAs h = le_to_Z (slice_at ar 40 1)
  /\ (lazy = false -> RollingHash h = le_to_Z (slice_at ar 32 8))
  /\ (lazy = false -> 2 <= Version h ->
      SHAHash h = Some (slice_at ar 41 20)
      /\ HashType h = le_to_Z (slice_at ar 61 1))
  /\ (3 <= Version h -> DataSizeUncompressed h = le_to_Z (slice_at ar 62 4)).
Proof.
  rewrite new_final. intros E. injection E as Eh Eb _ _.
  rewrite Eb in Eh. subst h. cbn.
  assert (Hm : Layout.magic ar = MAGIC).
  { unfold Layout.accepted in Eb.
    destruct (Z.eqb_spec (Layout.magic ar) MAGIC) as [E|E]; [exact E|].
    rewrite andb_false_r in Eb. discriminate. }
  repeat split; try reflexivity; intros; subst; try exact Hm;
    change (le_to_Z (slice_at ar 4 4)) with (Layout.version ar) in *;
    repeat match goal with
           | Hle : (_ <= Layout.version ar) |- _ =>
               apply Z.leb_le in Hle; rewrite Hle
           end;
    reflexivity.
Qed.

(** X2. A rejected decode does not rewind the archive: the cursor stays
    where reading stopped, at the start when fewer than 41 bytes were left,
    41 bytes further when the magic codeword is wrong or the version 2
    fields are missing, and 62 bytes further when only the version 3 field
    is missing. *)
Theorem rejected_decode_leaves_cursor_where_reading_stopped
    (lazy : bool) (ar : FArchive) (log : list event)
    (h : t) (ar' : FArchive) (log' : list event) :
  new lazy ar log = (Ok (h, false), ar', log') ->
  ar_data ar' = ar_data ar
  /\ (size_left ar < 41 -> ar_offset ar' = ar_offset ar)
  /\ (41 <= size_left ar ->
      le_to_Z (slice_at ar 0 4) <> MAGIC \/ size_left ar < 62 ->
      Z.of_N (ar_offset ar') = Z.of_N (ar_offset ar) + 41)
  /\ (62 <= size_left ar ->
      le_to_Z (slice_at ar 0 4) = MAGIC ->
      Z.of_N (ar_offset ar') = Z.of_N (ar_offset ar) + 62).
Proof.
  rewrite new_final. intros E. injection E as _ Eb <- _.
  unfold decode_final. rewrite Eb. unfold decode_stop.
  change (le_to_Z (slice_at ar 0 4)) with (Layout.magic ar).
  split; [reflexivity|].
  destruct (Z.ltb_spec (size_left ar) 41); destruct (Z.eqb_spec (Layout.magic ar) MAGIC);
    destruct (Z.ltb_spec (size_left ar) 62); cbn [negb advance ar_offset];
    repeat split; intros; try lia; intuition lia.
Qed.

(** X3. Fields that the declared version does not carry keep their default
    whatever bytes follow: below version 2 the hash type is rolling-only and
    there is no digest, below version 3 the uncompressed size is 1 MiB. *)
Theorem older_versions_keep_the_defaults
    (lazy : bool) (ar : FArchive) (log : list event)
    (h : t) (ar' : FArchive) (log' : list event) :
  new lazy ar log = (Ok (h, true), ar', log') ->
  (Version h < 2 ->
   HashType h = EChunkHashFlags.RollingPoly64 /\ SHAHash h = None)
  /\ (Version h < 3 -> DataSizeUncompressed h = 1024 * 1024).
Proof.
  rewrite new_final. intros E. injection E as Eh Eb _ _.
  rewrite Eb in Eh. subst h. cbn. split.
  - intros Hv. apply Z.leb_gt in Hv. now rewrite Hv.
  - intros Hv. apply Z.leb_gt in Hv. now rewrite Hv.
Qed.

(** X4. The constructor never rejects a header for its version number: with
    the magic codeword and 66 bytes left, every value of the version field
    is accepted and kept, zero and values above 3 included. *)
Theorem every_version_number_is_accepted
    (lazy : bool) (ar : FArchive) (log : list event) :
  le_to_Z (slice_at ar 0 4) = MAGIC ->
  66 <= size_left ar ->
  exists h ar',
    new lazy ar log = (Ok (h, true), ar', log)
    /\ Version h = le_to_Z (slice_at ar 4 4).
Proof.
  intros Hm Hs. rewrite new_final.
  assert (Ha : Layout.accepted ar = true).
  { unfold Layout.accepted, Layout.magic. rewrite Hm, Z.eqb_refl.
    rewrite (proj2 (Z.leb_le 41 _)), (proj2 (Z.leb_le 62 _)), (proj2 (Z.leb_le 66 _)) by lia.
    now rewrite !orb_true_r. }
  rewrite Ha. eexists _, _. split; reflexivity.
Qed.
End MoreDecodeTheorems.

(** * Further properties of [load] *)

Section MoreLoad.
Context `{Env}.
Import FChunkHeader.

Ltac split_all :=
  repeat match goal with
         | |- context [if ?b then _ else _] => destruct b eqn:?
         | |- context [match ?o with Some _ => _ | None => _ end] => destruct o eqn:?
         end.

(** X5. With verification enabled, once [load] has the final payload its
    result is [Success] with that payload exactly when every check that the
    hash type names passes (the rolling hash if its flag is set, the SHA-1
    digest if its flag is set), and [HashCheckFailed] without a buffer
    otherwise; the archive is not touched by the checks. *)
Theorem load_succeeds_iff_every_named_check_passes
    (h : t) (ar : FArchive) (log : list event)
    (buf : bytes) (ar' : FArchive) (log' : list event) :
  decoded false h ->
  load_payload h false ar log = (Ok (inr buf), ar', log') ->
  let rolling_ok :=
    negb (has_rolling h)
    || String.eqb (toHex (GetHashForDataSet buf)) (toHex (RollingHash h)) in
  let sha_ok :=
    negb (has_sha1 h)
    || match SHAHash h with
       | Some digest => String.eqb (sha1_hex_upper buf) (FSHAHash_toString digest)
       | None => false
       end in
  result_of (load h false ar log)
  = Ok (if rolling_ok && sha_ok then (Success, Some buf) else (HashCheckFailed, None))
  /\ state_of (load h false ar log) = ar'.
Proof.
  intros D Hp. cbv zeta.
  rewrite load_run, Hp, load_verify_run, !load_sha_run.
  pose proof (decoded_SHAHash _ _ D) as Hsha.
  unfold result_of, state_of.
  destruct (has_rolling h); destruct (has_sha1 h);
    destruct (String.eqb (toHex (GetHashForDataSet buf)) (toHex (RollingHash h)));
    cbn [negb orb andb fst snd]; try (split; reflexivity).
  all: destruct (Hsha eq_refl) as [d ->];
    destruct (String.eqb (sha1_hex_upper buf) (FSHAHash_toString d));
    split; reflexivity.
Qed.

(** X6. A hash type that names neither the rolling hash nor SHA-1 (the value
    4, say) passes the [MissingHashInfo] guard, and [load] with verification
    enabled then returns [Success] with the payload without computing any
    hash. *)
Theorem unknown_hash_type_loads_unverified
    (h : t) (ar : FArchive) (log : list event)
    (buf : bytes) (ar' : FArchive) (log' : list event) :
  has_rolling h = false ->
  has_sha1 h = false ->
  load_payload h false ar log = (Ok (inr buf), ar', log') ->
  load h false ar log = (Ok (Success, Some buf), ar', log').
Proof.
  intros Hr Hs Hp. now rewrite load_run, Hp, load_verify_run, Hr, load_sha_run, Hs.
Qed.

(** X7. For a chunk stored compressed that passes the four guards: when zlib
    rejects the stored bytes [load] throws, it returns no result code; when
    they inflate to a length other than [DataSizeUncompressed] it returns
    [DecompressFailure] without a buffer; in both cases no hash is
    computed. *)
Theorem failed_decompression
    (h : t) (lazy : bool) (ar : FArchive) (log : list event) (g : FGuid) :
  Guid h = Some g ->
  FGuid_isValid g = true ->
  lazy = true \/ HashType h <> EChunkHashFlags.None ->
  0 <= DataSizeCompressed h <= size_left ar ->
  encrypted h = false ->
  compressed h = true ->
  let stored := slice_at ar 0 (DataSizeCompressed h) in
  let log' := log ++ [EvArchiveRead (DataSizeCompressed h); EvInflate stored] in
  (inflateSync stored = None ->
   load h lazy ar log
   = (Throw "Error: incorrect header check", advance ar (DataSizeCompressed h), log'))
  /\ (forall data,
        inflateSync stored = Some data ->
        Z.of_nat (length data) <> DataSizeUncompressed h ->
        load h lazy ar log
        = (Ok (DecompressFailure, None), advance ar (DataSizeCompressed h), log')).
Proof.
  intros Hg Hv Hh [Hn Hle] He Hc. cbv zeta.
  rewrite (load_guards h lazy ar log g Hg Hn), Hv, He. cbn [negb].
  assert (Hgate : negb lazy && (HashType h =? EChunkHashFlags.None) = false).
  { destruct Hh as [->|Hne]; [reflexivity|].
    apply Z.eqb_neq in Hne. rewrite Hne. apply andb_false_r. }
  rewrite Hgate. destruct (Z.ltb_spec (size_left ar) (DataSizeCompressed h)); [lia|].
  unfold bind. rewrite load_decompress_run, Hc, <- app_assoc. cbn [app].
  split.
  - now intros ->.
  - intros data -> Hlen. apply Z.eqb_neq in Hlen. now rewrite Hlen.
Qed.

Lemma slice_after_header ar hs n :
  0 <= hs ->
  slice_at {| ar_data := ar_data ar;
              ar_offset := Z.to_N (Z.of_N (ar_offset ar) + hs) |} 0 n
  = slice_at ar hs n.
Proof.
  intros Hhs. unfold slice_at. cbn [ar_data ar_offset]. do 2 f_equal. lia.
Qed.

(** X8. After a successful decode, what [load] returns on [Success] comes
    from the [DataSizeCompressed] bytes that start [HeaderSize] bytes after
    the start of the header, not from the bytes that follow the fields the
    constructor read: those bytes themselves when the chunk is stored
    uncompressed, their inflation when it is stored compressed. *)
Theorem payload_is_taken_at_header_size
    (lazy : bool) (ar : FArchive) (log : list event)
    (h : t) (ar1 : FArchive) (log1 : list event)
    (lazy' : bool) (buf : bytes) (ar2 : FArchive) (log2 : list event) :
  new lazy ar log = (Ok (h, true), ar1, log1) ->
  load h lazy' ar1 log1 = (Ok (Success, Some buf), ar2, log2) ->
  if compressed h
  then inflateSync (slice_at ar (HeaderSize h) (DataSizeCompressed h)) = Some buf
  else buf = slice_at ar (HeaderSize h) (DataSizeCompressed h).
Proof.
  intros Hnew.
  assert (D : decoded lazy h) by (now exists ar, log, true, ar1, log1).
  destruct (decoded_Guid _ _ D) as [g Hg].
  pose proof (decoded_DataSizeCompressed _ _ D) as Hn.
  rewrite new_final in Hnew. injection Hnew as Eh Eb Ear _.
  unfold decode_final in Ear. rewrite Eb in Ear. rewrite Eb in Eh.
  assert (Hhs : HeaderSize h = Layout.header_size ar) by now subst h.
  assert (Hhs0 : 0 <= Layout.header_size ar) by apply le_to_Z_nonneg.
  subst ar1. rewrite (load_guards h lazy' _ log1 g Hg Hn).
  rewrite slice_after_header by exact Hhs0. rewrite Hhs.
  unfold bind, ret. rewrite load_decompress_run.
  fold (compressed h).
  split_all; cbv beta iota; rewrite ?load_verify_run, ?load_sha_run;
    split_all; intros E; try discriminate; injection E as <- _ _; reflexivity.
Qed.

(** X9. A header whose [HeaderSize] points past the end of the archive is
    accepted by the constructor; [load] then returns [CorruptHeader],
    [MissingHashInfo] or [IncorrectFileSize] and reads nothing, whatever
    [DataSizeCompressed] is. *)
Theorem header_size_past_the_end
    (lazy : bool) (ar : FArchive) (log : list event)
    (h : t) (ar1 : FArchive) (log1 : list event) (lazy' : bool) :
  new lazy ar log = (Ok (h, true), ar1, log1) ->
  size_left ar < HeaderSize h ->
  exists status,
    load h lazy' ar1 log1 = (Ok (status, None), ar1, log1)
    /\ (status = CorruptHeader \/ status = MissingHashInfo
        \/ status = IncorrectFileSize).
Proof.
  intros Hnew Hpast.
  assert (D : decoded lazy h) by (now exists ar, log, true, ar1, log1).
  destruct (decoded_Guid _ _ D) as [g Hg].
  pose proof (decoded_DataSizeCompressed _ _ D) as Hn.
  rewrite new_final in Hnew. injection Hnew as Eh Eb Ear _.
  unfold decode_final in Ear. rewrite Eb in Ear. rewrite Eb in Eh.
  assert (Hhs : HeaderSize h = Layout.header_size ar) by now subst h.
  rewrite (load_guards h lazy' ar1 log1 g Hg Hn).
  destruct (negb (FGuid_isValid g)); [eexists; split; [reflexivity|auto]|].
  destruct (negb lazy' && (HashType h =? EChunkHashFlags.None));
    [eexists; split; [reflexivity|auto]|].
  assert (Hleft : size_left ar1 < DataSizeCompressed h).
  { subst ar1. unfold size_left in *. cbn [ar_data ar_offset]. lia. }
  destruct (Z.ltb_spec (size_left ar1) (DataSizeCompressed h)); [|lia].
  eexists; split; [reflexivity|auto].
Qed.
End MoreLoad.

(** * Further properties of [loadData] *)

Section MoreResolver.
Context `{Env}.
Import FileChunkPart.

Lemma fetch_payload_cases this fs log :
  fetch_payload this fs log =
  if cache_hit this fs then
    match cache_path_of this with
    | Some p => load_cached this p fs (log ++ probe_log this)
    | None => (Ok [], fs, log ++ probe_log this)
    end
  else load_remote this (cache_path_of this) fs (log ++ probe_log this).
Proof.
  unfold fetch_payload, cache_hit, probe_log, cache_path_of.
  destruct (cacheDirectory (_options this)) as [d|].
  - unfold fs_existsSync, bind, emit, get, ret.
    now destruct (bool_decide (is_Some (fs !! join d (Filename this)))).
  - unfold bind, ret. now rewrite app_nil_r.
Qed.

Lemma cache_hit_lookup this fs :
  cache_hit this fs = true ->
  exists p data, cache_path_of this = Some p /\ fs !! p = Some data.
Proof.
  unfold cache_hit. destruct (cache_path_of this) as [p|]; [|discriminate].
  intros Hb. apply bool_decide_eq_true_1 in Hb. destruct Hb as [data Hd].
  now exists p, data.
Qed.

Lemma take_bytes_log n ar log :
  log_of (Ar.take_bytes n ar log) = log.
Proof. unfold Ar.take_bytes, log_of. now destruct (_ || _). Qed.

Lemma readUInt32_cases ar log :
  (exists e, Ar.readUInt32 ar log = (Throw e, ar, log))
  \/ (4 <= size_left ar
      /\ Ar.readUInt32 ar log = (Ok (le_to_Z (slice_at ar 0 4)), advance ar 4, log)).
Proof.
  destruct (Z.le_gt_cases 4 (size_left ar)) as [Hle|Hgt].
  - right. split; [exact Hle|].
    pose proof (readUInt32_run ar 0 log ltac:(lia) ltac:(lia)) as P.
    now rewrite advance_0 in P.
  - left. unfold Ar.readUInt32, bind, Ar.take_bytes. unfold size_left in Hgt.
    change (4 <? 0) with false. cbn [orb].
    destruct (Z.ltb_spec (Z.of_nat (length (ar_data ar))) (Z.of_N (ar_offset ar) + 4));
      [|lia].
    eexists. reflexivity.
Qed.

(** The header that the download branch builds from a response body. *)
Lemma remote_block_run (this : t) (content : bytes) (log : list event) :
  4 <= Z.of_nat (length content) ->
  Layout.magic (FArchive_new content) = FChunkHeader.MAGIC ->
  (magic <- Ar.readUInt32 ;;
   if negb (magic =? FChunkHeader.MAGIC) then
     throw ("Chunk '" +:+ Filename this
            +:+ "' is invalid: Header magic mismatch (0x"
            +:+ toHex magic +:+ " != 0x"
            +:+ toHex FChunkHeader.MAGIC +:+ ")")
   else
     Ar.seek 0 ;;;
     header <- FChunkHeader.new (lazy (_options this)) ;;
     FChunkHeader.load (fst header) (lazy (_options this)))
    (FArchive_new content) log
  = FChunkHeader.load
      (if Layout.accepted (FArchive_new content)
       then Layout.fields (lazy (_options this)) (FArchive_new content)
       else FChunkHeader.zeroed)
      (lazy (_options this)) (decode_final (FArchive_new content)) log.
Proof.
  intros Hlen Hm.
  destruct (readUInt32_cases (FArchive_new content) log) as [[e He]|[_ Hr]].
  { exfalso. unfold Ar.readUInt32, bind, Ar.take_bytes in He.
    cbn [ar_data ar_offset FArchive_new] in He. change (4 <? 0) with false in He.
    cbn [orb] in He.
    destruct (Z.ltb_spec (Z.of_nat (length content)) (Z.of_N 0 + 4)); [lia|].
    discriminate. }
  unfold bind at 1. rewrite Hr. fold (Layout.magic (FArchive_new content)).
  rewrite Hm, Z.eqb_refl. cbn [negb].
  unfold bind at 1. unfold Ar.seek at 1.
  change {| ar_data := ar_data (advance (FArchive_new content) 4); ar_offset := Z.to_N 0 |}
    with (FArchive_new content).
  unfold bind at 1. rewrite new_final. reflexivity.
Qed.

Lemma load_remote_run this path fs log base content :
  chunkBaseUri (_options this) = Some base ->
  request (request_uri this base) = Some (200, content) ->
  4 <= Z.of_nat (length content) ->
  Layout.magic (FArchive_new content) = FChunkHeader.MAGIC ->
  load_remote this path fs log =
  match FChunkHeader.load
          (if Layout.accepted (FArchive_new content)
           then Layout.fields (lazy (_options this)) (FArchive_new content)
           else FChunkHeader.zeroed)
          (lazy (_options this)) (decode_final (FArchive_new content))
          (log ++ [EvRequest (request_uri this base)]) with
  | (Ok (status, buf), _, log') =>
      match status with
      | Success =>
          match buf with
          | Some data =>
              match path with
              | Some p => (Ok data, <[p := data]> fs, log' ++ [EvWriteFile p data])
              | None => (Ok data, fs, log')
              end
          | None =>
              (Throw "TypeError: Cannot read properties of null (reading 'copy')",
               fs, log')
          end
      | _ =>
          (Throw ("Chunk '" +:+ Filename this
                  +:+ "' is invalid: Load result 'EChunkLoadResult::"
                  +:+ EChunkLoadResult_name status +:+ "'"), fs, log')
      end
  | (Throw e, _, log') => (Throw e, fs, log')
  end.
Proof.
  intros Hbase Hreq Hlen Hm. unfold load_remote. rewrite Hbase.
  fold (request_uri this base). unfold bind at 1. unfold emit at 1.
  rewrite Hreq. change (200 =? 200) with true. cbn [negb].
  unfold bind at 1.
  match goal with
  | |- context [with_archive ?a ?m ?s ?l] =>
      change (with_archive a m s l) with (let '(r, _, log') := m a l in (r, s, log'))
  end.
  rewrite (remote_block_run this content _ Hlen Hm).
  destruct (FChunkHeader.load _ _ _ _) as [[[[st ob]|e] ar2] log2]; [|reflexivity].
  destruct st; destruct ob as [data|]; try reflexivity.
  destruct path as [p|]; reflexivity.
Qed.

(** What [load] appends to the log: no request and no file access, and no
    hash in lazy mode. *)
Lemma load_appends lazy0 h lazy' ar log :
  decoded lazy0 h ->
  exists l,
    log_of (FChunkHeader.load h lazy' ar log) = log ++ l
    /\ filter is_request_event l = []
    /\ filter is_write_event l = []
    /\ (lazy' = true -> filter is_hash_event l = []).
Proof.
  intros D. destruct (decoded_Guid _ _ D) as [g Hg].
  pose proof (decoded_DataSizeCompressed _ _ D) as Hn.
  rewrite (load_guards h lazy' ar log g Hg Hn).
  unfold bind, ret. rewrite load_decompress_run. unfold log_of.
  repeat match goal with
         | |- context [if ?b then _ else _] => destruct b eqn:?
         | |- context [match ?o with Some _ => _ | None => _ end] => destruct o eqn:?
         end;
    cbv beta iota; rewrite ?load_verify_run, ?load_sha_run;
    repeat match goal with
           | |- context [if ?b then _ else _] => destruct b eqn:?
           | |- context [match ?o with Some _ => _ | None => _ end] => destruct o eqn:?
           end;
    cbn [snd]; rewrite <- ?app_assoc; cbn [app];
    first [ (exists []; rewrite app_nil_r; repeat split; reflexivity)
          | (eexists; split; [reflexivity|];
             split; [reflexivity|]; split; [reflexivity|];
             intros Hl; first [reflexivity | discriminate Hl]) ].
Qed.

Lemma decoded_from_layout lazy ar :
  decoded lazy (if Layout.accepted ar then Layout.fields lazy ar
                else FChunkHeader.zeroed).
Proof.
  exists ar, [], (Layout.accepted ar), (decode_final ar), []. apply new_final.
Qed.

Lemma load_remote_no_base this path fs log :
  chunkBaseUri (_options this) = None ->
  load_remote this path fs log
  = (Throw "'<ManifestOptions>.chunkBaseUri' can not be empty for downloading chunks",
     fs, log).
Proof. intros Hb. unfold load_remote. now rewrite Hb. Qed.

Lemma load_remote_rejected this path fs log base :
  chunkBaseUri (_options this) = Some base ->
  request (request_uri this base) = None ->
  load_remote this path fs log
  = (Throw "Error: request failed", fs, log ++ [EvRequest (request_uri this base)]).
Proof.
  intros Hb Hr. unfold load_remote. rewrite Hb. fold (request_uri this base).
  unfold bind, emit. now rewrite Hr.
Qed.

Lemma load_remote_status this path fs log base status content :
  chunkBaseUri (_options this) = Some base ->
  request (request_uri this base) = Some (status, content) ->
  status <> 200 ->
  load_remote this path fs log
  = (Throw ("Failed to download '" +:+ Filename this
            +:+ "': Request failed with status '"
            +:+ Number_toString status +:+ "'"),
     fs, log ++ [EvRequest (request_uri this base)]).
Proof.
  intros Hb Hr Hs. unfold load_remote. rewrite Hb. fold (request_uri this base).
  unfold bind, emit. rewrite Hr. apply Z.eqb_neq in Hs. now rewrite Hs.
Qed.

Lemma load_remote_short this path fs log base content :
  chunkBaseUri (_options this) = Some base ->
  request (request_uri this base) = Some (200, content) ->
  Z.of_nat (length content) < 4 ->
  load_remote this path fs log
  = (Throw "RangeError: Attempt to access memory outside buffer bounds",
     fs, log ++ [EvRequest (request_uri this base)]).
Proof.
  intros Hb Hr Hs. unfold load_remote. rewrite Hb. fold (request_uri this base).
  unfold bind at 1. unfold emit at 1. rewrite Hr. change (200 =? 200) with true.
  cbn [negb]. unfold bind at 1.
  match goal with
  | |- context [with_archive ?a ?m ?s ?l] =>
      change (with_archive a m s l) with (let '(r, _, log') := m a l in (r, s, log'))
  end.
  unfold bind at 1. unfold Ar.readUInt32, bind, Ar.take_bytes.
  cbn [ar_data ar_offset FArchive_new]. change (4 <? 0) with false. cbn [orb].
  destruct (Z.ltb_spec (Z.of_nat (length content)) (Z.of_N 0 + 4)); [|lia].
  reflexivity.
Qed.

Lemma load_remote_bad_magic this path fs log base content :
  chunkBaseUri (_options this) = Some base ->
  request (request_uri this base) = Some (200, content) ->
  4 <= Z.of_nat (length content) ->
  Layout.magic (FArchive_new content) <> FChunkHeader.MAGIC ->
  load_remote this path fs log
  = (Throw ("Chunk '" +:+ Filename this
            +:+ "' is invalid: Header magic mismatch (0x"
            +:+ toHex (Layout.magic (FArchive_new content)) +:+ " != 0x"
            +:+ toHex FChunkHeader.MAGIC +:+ ")"),
     fs, log ++ [EvRequest (request_uri this base)]).
Proof.
  intros Hb Hr Hlen Hm. unfold load_remote. rewrite Hb. fold (request_uri this base).
  unfold bind at 1. unfold emit at 1. rewrite Hr. change (200 =? 200) with true.
  cbn [negb]. unfold bind at 1.
  match goal with
  | |- context [with_archive ?a ?m ?s ?l] =>
      change (with_archive a m s l) with (let '(r, _, log') := m a l in (r, s, log'))
  end.
  unfold bind at 1.
  destruct (readUInt32_cases (FArchive_new content)
              (log ++ [EvRequest (request_uri this base)])) as [[e He]|[_ Hrd]].
  { exfalso. unfold Ar.readUInt32, bind, Ar.take_bytes in He.
    cbn [ar_data ar_offset FArchive_new] in He. change (4 <? 0) with false in He.
    cbn [orb] in He.
    destruct (Z.ltb_spec (Z.of_nat (length content)) (Z.of_N 0 + 4)); [lia|].
    discriminate. }
  rewrite Hrd. fold (Layout.magic (FArchive_new content)).
  apply Z.eqb_neq in Hm. rewrite Hm. reflexivity.
Qed.

(** Every way the download branch can end. *)
Lemma load_remote_cases this path fs log :
  (exists e l, load_remote this path fs log = (Throw e, fs, log ++ l)
               /\ (l = [] /\ chunkBaseUri (_options this) = None
                   \/ exists base, chunkBaseUri (_options this) = Some base
                                    /\ l = [EvRequest (request_uri this base)]))
  \/ (exists base content,
        chunkBaseUri (_options this) = Some base
        /\ request (request_uri this base) = Some (200, content)
        /\ 4 <= Z.of_nat (length content)
        /\ Layout.magic (FArchive_new content) = FChunkHeader.MAGIC).
Proof.
  destruct (chunkBaseUri (_options this)) as [base|] eqn:Hb.
  2:{ left. eexists _, []. rewrite app_nil_r.
      split; [exact (load_remote_no_base this path fs log Hb)|]. now left. }
  destruct (request (request_uri this base)) as [[status content]|] eqn:Hr.
  2:{ left. eexists _, _.
      split; [exact (load_remote_rejected this path fs log base Hb Hr)|].
      right. now exists base. }
  destruct (Z.eq_dec status 200) as [->|Hs].
  2:{ left. eexists _, _.
      split; [exact (load_remote_status this path fs log base status content Hb Hr Hs)|].
      right. now exists base. }
  destruct (Z.le_gt_cases 4 (Z.of_nat (length content))) as [Hlen|Hlen].
  2:{ left. eexists _, _.
      split; [exact (load_remote_short this path fs log base content Hb Hr
                       ltac:(lia))|].
      right. now exists base. }
  destruct (Z.eq_dec (Layout.magic (FArchive_new content)) FChunkHeader.MAGIC) as [Hm|Hm].
  2:{ left. eexists _, _.
      split; [exact (load_remote_bad_magic this path fs log base content Hb Hr Hlen Hm)|].
      right. now exists base. }
  right. now exists base, content.
Qed.

(** What the download branch appends to the log and does to the file
    system. *)
Lemma load_remote_effects this path fs log :
  exists l,
    log_of (load_remote this path fs log)
    = log ++ match chunkBaseUri (_options this) with
             | Some base => [EvRequest (request_uri this base)]
             | None => []
             end ++ l
    /\ filter is_request_event l = []
    /\ (lazy (_options this) = true -> filter is_hash_event l = [])
    /\ match result_of (load_remote this path fs log) with
       | Ok data =>
           state_of (load_remote this path fs log)
           = match path with Some p => <[p := data]> fs | None => fs end
       | Throw _ => state_of (load_remote this path fs log) = fs
       end.
Proof.
  destruct (load_remote_cases this path fs log)
    as [(e & l & E & [[-> Hb]|(base & Hb & ->)])|(base & content & Hb & Hr & Hlen & Hm)].
  - rewrite E, Hb. exists []. unfold log_of, result_of, state_of.
    cbn [fst snd app]. repeat split; auto.
  - rewrite E, Hb. exists []. unfold log_of, result_of, state_of.
    cbn [fst snd app]. repeat split; auto.
  - rewrite (load_remote_run this path fs log base content Hb Hr Hlen Hm), Hb.
    destruct (load_appends (lazy (_options this)) _ (lazy (_options this))
                (decode_final (FArchive_new content))
                (log ++ [EvRequest (request_uri this base)])
                (decoded_from_layout (lazy (_options this)) (FArchive_new content)))
      as (l & El & Hq & Hw & Hh).
    destruct (FChunkHeader.load _ _ _ _) as [[[[st ob]|e] ar2] log2];
      unfold log_of in El; cbn [snd] in El; subst log2.
    + destruct st; destruct ob as [data|]; try destruct path as [p|];
        unfold log_of, result_of, state_of; cbn [fst snd];
        first [ (exists l; rewrite <- app_assoc; repeat split; auto; fail)
              | (exists (l ++ [EvWriteFile p data]); rewrite <- !app_assoc;
                 rewrite !filter_app, Hq; split; [reflexivity|];
                 split; [reflexivity|]; split; [|reflexivity];
                 intros Hl; rewrite (Hh Hl); reflexivity) ].
    + exists l. unfold log_of, result_of, state_of. cbn [fst snd].
      rewrite <- app_assoc. repeat split; auto.
Qed.

Lemma window_phase_run (this : t) (data : bytes) (fs : FS) log :
  (result <- Buffer_alloc (Z.of_N (Size this)) ;;
   Buffer_copy data result 0 (Z.of_N (Offset this))
               (Z.of_N (Offset this) + Z.of_N (Size this))) fs log
  = if Z.of_nat (length data) <? Z.of_N (Offset this)
    then (Throw "RangeError: The value of 'sourceStart' is out of range", fs, log)
    else (Ok (window data (Offset this) (Size this)), fs, log).
Proof.
  destruct (Z.ltb_spec (Z.of_nat (length data)) (Z.of_N (Offset this))).
  - now apply window_out_of_range.
  - now apply window_run.
Qed.


Lemma cache_hit_effects (this : t) (fs : FS) (log : list event) :
  cache_hit this fs = true ->
  state_of (loadData this fs log) = fs
  /\ filter is_request_event (log_of (loadData this fs log))
     = filter is_request_event log
  /\ filter is_write_event (log_of (loadData this fs log))
     = filter is_write_event log.
Proof.
  intros Hhit. rewrite loadData_run, fetch_payload_cases, Hhit.
  destruct (cache_hit_lookup _ _ Hhit) as (p & d & Hp & Hd).
  rewrite Hp, (load_cached_run this p fs _ d Hd).
  unfold probe_log. rewrite Hp.
  repeat match goal with
         | |- context [if ?b then _ else _] => destruct b
         end;
    rewrite ?window_phase_run;
    repeat match goal with
           | |- context [if ?b then _ else _] => destruct b
           end;
    unfold state_of, log_of; cbn [fst snd];
    rewrite <- ?app_assoc, !filter_app; cbn; rewrite ?app_nil_r; auto.
Qed.

(** X11. When the cache file exists, [loadData] neither writes to the file
    system nor makes a request, whether it returns or throws. *)
Theorem cache_hit_is_read_only_and_offline
    (this : t) (fs : FS) (log : list event) :
  cache_hit this fs = true ->
  state_of (loadData this fs log) = fs
  /\ filter is_request_event (log_of (loadData this fs log))
     = filter is_request_event log
  /\ filter is_write_event (log_of (loadData this fs log))
     = filter is_write_event log.
Proof. apply cache_hit_effects. Qed.

(** X12. [loadData] makes at most one request: none on a cache hit or
    without a base URI, and otherwise exactly one, to the base URI followed
    by the chunk's [Url], with a slash between them unless the base URI
    already ends in one.  There is no retry on any failure. *)
Theorem at_most_one_request
    (this : t) (fs : FS) (log : list event) :
  filter is_request_event (log_of (loadData this fs log))
  = filter is_request_event log
    ++ (if cache_hit this fs then []
        else match chunkBaseUri (_options this) with
             | Some base =>
                 [EvRequest (base +:+ (if endsWith_slash base then "" else "/")
                             +:+ Url this)]
             | None => []
             end).
Proof.
  destruct (cache_hit this fs) eqn:Hhit.
  - rewrite app_nil_r. now apply cache_hit_effects.
  - rewrite loadData_run, fetch_payload_cases, Hhit.
    destruct (load_remote_effects this (cache_path_of this) fs (log ++ probe_log this))
      as (l & El & Hq & _ & _).
    assert (Hlog : filter is_request_event
                     (log_of (load_remote this (cache_path_of this) fs
                                (log ++ probe_log this)))
                   = filter is_request_event log
                     ++ match chunkBaseUri (_options this) with
                        | Some base => [EvRequest (request_uri this base)]
                        | None => []
                        end).
    { rewrite El, !filter_app, Hq, app_nil_r.
      assert (Hp : filter is_request_event (probe_log this) = []).
      { unfold probe_log. now destruct (cache_path_of this). }
      rewrite Hp, app_nil_r. now destruct (chunkBaseUri (_options this)). }
    destruct (load_remote this (cache_path_of this) fs (log ++ probe_log this))
      as [[[data|e0] fs0] log0]; unfold log_of in Hlog |- *; cbn [snd] in Hlog |- *.
    + rewrite window_phase_run.
      now destruct (Z.of_nat (length data) <? Z.of_N (Offset this)).
    + exact Hlog.
Qed.

(** X13. Without a cache file and without a base URI, [loadData] throws the
    configuration error before any request and without touching the file
    system; the only call it has made is the file test, and not even that
    when no cache directory is configured. *)
Theorem missing_base_uri_is_reported_before_any_request
    (this : t) (fs : FS) (log : list event) :
  cache_hit this fs = false ->
  chunkBaseUri (_options this) = None ->
  loadData this fs log
  = (Throw "'<ManifestOptions>.chunkBaseUri' can not be empty for downloading chunks",
     fs,
     log ++ match cacheDirectory (_options this) with
            | Some d => [EvExists (join d (Filename this))]
            | None => []
            end).
Proof.
  intros Hhit Hb. rewrite loadData_run, fetch_payload_cases, Hhit.
  rewrite (load_remote_no_base this _ fs _ Hb).
  unfold probe_log, cache_path_of. now destruct (cacheDirectory (_options this)).
Qed.

(** X14. A response whose status is not 200 makes [loadData] throw an error
    that carries the file name and the status; the body is not looked at and
    nothing is written. *)
Theorem non_200_status_is_an_error
    (this : t) (fs : FS) (log : list event)
    (base : string) (status : Z) (content : bytes) :
  cache_hit this fs = false ->
  chunkBaseUri (_options this) = Some base ->
  request (request_uri this base) = Some (status, content) ->
  status <> 200 ->
  loadData this fs log
  = (Throw ("Failed to download '" +:+ Filename this
            +:+ "': Request failed with status '"
            +:+ Number_toString status +:+ "'"),
     fs, log ++ probe_log this ++ [EvRequest (request_uri this base)]).
Proof.
  intros Hhit Hb Hr Hs. rewrite loadData_run, fetch_payload_cases, Hhit.
  rewrite (load_remote_status this _ fs _ base status content Hb Hr Hs).
  now rewrite <- app_assoc.
Qed.

(** X15. A 200 response of at least four bytes that does not start with the
    magic codeword makes [loadData] throw the "Header magic mismatch" error
    with both values; no header is decoded and nothing is written. *)
Theorem response_without_magic_is_an_error
    (this : t) (fs : FS) (log : list event) (base : string) (content : bytes) :
  cache_hit this fs = false ->
  chunkBaseUri (_options this) = Some base ->
  request (request_uri this base) = Some (200, content) ->
  4 <= Z.of_nat (length content) ->
  le_to_Z (take 4 content) <> FChunkHeader.MAGIC ->
  loadData this fs log
  = (Throw ("Chunk '" +:+ Filename this
            +:+ "' is invalid: Header magic mismatch (0x"
            +:+ toHex (le_to_Z (take 4 content)) +:+ " != 0x"
            +:+ toHex FChunkHeader.MAGIC +:+ ")"),
     fs, log ++ probe_log this ++ [EvRequest (request_uri this base)]).
Proof.
  intros Hhit Hb Hr Hlen Hm. rewrite loadData_run, fetch_payload_cases, Hhit.
  rewrite (load_remote_bad_magic this _ fs _ base content Hb Hr Hlen Hm).
  now rewrite <- app_assoc.
Qed.

(** X16. When the downloaded container decodes and [load] returns a result
    other than [Success], [loadData] throws an error that names that result;
    the file system is unchanged. *)
Theorem load_failure_is_reported_by_name
    (this : t) (fs : FS) (log : list event) (base : string) (content : bytes)
    (h : FChunkHeader.t) (b : bool) (ar1 : FArchive) (log1 : list event)
    (status : EChunkLoadResult) (ob : option bytes)
    (ar2 : FArchive) (log2 : list event) :
  cache_hit this fs = false ->
  chunkBaseUri (_options this) = Some base ->
  request (request_uri this base) = Some (200, content) ->
  4 <= Z.of_nat (length content) ->
  le_to_Z (take 4 content) = FChunkHeader.MAGIC ->
  FChunkHeader.new (lazy (_options this)) (FArchive_new content)
    (log ++ probe_log this ++ [EvRequest (request_uri this base)])
  = (Ok (h, b), ar1, log1) ->
  FChunkHeader.load h (lazy (_options this)) ar1 log1 = (Ok (status, ob), ar2, log2) ->
  status <> Success ->
  loadData this fs log
  = (Throw ("Chunk '" +:+ Filename this
            +:+ "' is invalid: Load result 'EChunkLoadResult::"
            +:+ EChunkLoadResult_name status +:+ "'"), fs, log2).
Proof.
  intros Hhit Hb Hr Hlen Hm Hnew Hload Hst.
  rewrite loadData_run, fetch_payload_cases, Hhit.
  rewrite (load_remote_run this _ fs _ base content Hb Hr Hlen Hm).
  rewrite new_final in Hnew. injection Hnew as <- _ <- <-.
  rewrite <- app_assoc, Hload.
  destruct status; try reflexivity. contradiction.
Qed.

(** X17. A container that starts with the magic codeword and that the
    constructor rejects (cut short inside the header, for instance) is
    reported by [loadData] as [CorruptHeader]: the constructor has reset the
    GUID to zero and [load] finds it invalid. *)
Theorem rejected_header_is_reported_as_CorruptHeader
    (this : t) (fs : FS) (log : list event) (base : string) (content : bytes)
    (h : FChunkHeader.t) (ar1 : FArchive) (log1 : list event) :
  cache_hit this fs = false ->
  chunkBaseUri (_options this) = Some base ->
  request (request_uri this base) = Some (200, content) ->
  4 <= Z.of_nat (length content) ->
  le_to_Z (take 4 content) = FChunkHeader.MAGIC ->
  FChunkHeader.new (lazy (_options this)) (FArchive_new content)
    (log ++ probe_log this ++ [EvRequest (request_uri this base)])
  = (Ok (h, false), ar1, log1) ->
  loadData this fs log
  = (Throw ("Chunk '" +:+ Filename this
            +:+ "' is invalid: Load result 'EChunkLoadResult::CorruptHeader'"),
     fs, log ++ probe_log this ++ [EvRequest (request_uri this base)]).
Proof.
  intros Hhit Hb Hr Hlen Hm Hnew.
  rewrite loadData_run, fetch_payload_cases, Hhit.
  rewrite (load_remote_run this _ fs _ base content Hb Hr Hlen Hm).
  rewrite new_final in Hnew. injection Hnew as _ Hacc _ _. rewrite Hacc.
  rewrite (load_guards FChunkHeader.zeroed _ _ _ FGuid_zero eq_refl ltac:(cbn; lia)).
  change (negb (FGuid_isValid FGuid_zero)) with true. cbv iota.
  now rewrite <- app_assoc.
Qed.


(** X19. With verification disabled [loadData] computes no hash on any path:
    not on a cache hit, and not when it downloads, decodes and loads the
    chunk. *)
Theorem lazy_fetch_computes_no_hash
    (this : t) (fs : FS) (log : list event) :
  lazy (_options this) = true ->
  filter is_hash_event (log_of (loadData this fs log)) = filter is_hash_event log.
Proof.
  intros Hlazy. rewrite loadData_run, fetch_payload_cases.
  assert (Hp : filter is_hash_event (probe_log this) = []).
  { unfold probe_log. now destruct (cache_path_of this). }
  destruct (cache_hit this fs) eqn:Hhit.
  - destruct (cache_hit_lookup _ _ Hhit) as (p & d & Hpath & Hd).
    rewrite Hpath, (load_cached_run this p fs _ d Hd), Hlazy, window_phase_run.
    destruct (Z.of_nat (length d) <? Z.of_N (Offset this));
      unfold log_of; cbn [snd]; rewrite !filter_app, Hp; cbn; now rewrite !app_nil_r.
  - destruct (load_remote_effects this (cache_path_of this) fs (log ++ probe_log this))
      as (l & El & _ & Hh & _).
    assert (Hlog : filter is_hash_event
                     (log_of (load_remote this (cache_path_of this) fs
                                (log ++ probe_log this)))
                   = filter is_hash_event log).
    { rewrite El, !filter_app, Hp, (Hh Hlazy), !app_nil_r.
      destruct (chunkBaseUri (_options this)); cbn; now rewrite app_nil_r. }
    destruct (load_remote this (cache_path_of this) fs (log ++ probe_log this))
      as [[[data|e0] fs0] log0]; unfold log_of in Hlog |- *; cbn [snd] in Hlog |- *.
    + rewrite window_phase_run.
      now destruct (Z.of_nat (length data) <? Z.of_N (Offset this)).
    + exact Hlog.
Qed.
End MoreResolver.

(** * Properties of the constructor of FileChunkPart *)

Section Constructor.
Context `{Env} `{ManifestEnv}.

Lemma string_length_append (s1 s2 : string) :
  String.length (s1 +:+ s2) = (String.length s1 + String.length s2)%nat.
Proof. induction s1 as [|c s1 IH]; simpl; [reflexivity|]. now f_equal. Qed.

Lemma string_length_substring (n m : nat) (s : string) :
  (n + m <= String.length s)%nat -> String.length (String.substring n m s) = m.
Proof.
  revert n m. induction s as [|c s IH]; intros n m Hle.
  - cbn in Hle. assert (n = 0%nat) by lia. assert (m = 0%nat) by lia. now subst.
  - destruct n as [|n]; cbn [String.substring].
    + destruct m as [|m]; [reflexivity|]. cbn [String.length] in *.
      f_equal. apply IH. lia.
    + apply IH. cbn [String.length] in Hle. lia.
Qed.

Lemma data_group_small :
  forallb (fun g => String.eqb (FileChunkPartCtor.data_group g) (two_digits g))
          (map Z.of_nat (seq 0 1000)) = true.
Proof. vm_compute. reflexivity. Qed.

(** X20. The group tag of a chunk is always two characters long; for a
    group number from 0 to 999 it is the two decimal digits of the number
    modulo 100, so that a single digit is padded with a zero and a number of
    three digits loses its hundreds. *)
Theorem data_group_is_the_last_two_digits (group : Z) :
  String.length (FileChunkPartCtor.data_group group) = 2%nat
  /\ (0 <= group < 1000 -> FileChunkPartCtor.data_group group = two_digits group).
Proof.
  split.
  - unfold FileChunkPartCtor.data_group, String_substr.
    set (s := "00" +:+ Number_toString group).
    assert (Hlen : (2 <= String.length s)%nat).
    { unfold s. rewrite string_length_append. cbn. lia. }
    change (-2 <? 0) with true. cbv iota.
    rewrite Z.max_l by lia.
    replace (Z.to_nat (Z.of_nat (String.length s)
                       - (Z.of_nat (String.length s) + -2))) with 2%nat by lia.
    apply string_length_substring. lia.
  - intros Hr. pose proof data_group_small as Hall.
    rewrite forallb_forall in Hall.
    apply String.eqb_eq. apply Hall. apply in_map_iff.
    exists (Z.to_nat group). split; [lia|]. apply in_seq. lia.
Qed.

(** X21. When the GUID of the chunk part is missing from the manifest's
    [DataGroupList], the constructor throws: it never returns an object
    without a group tag. *)
Theorem missing_data_group_makes_the_constructor_throw
    {S : Type} (chunk : FChunkPart) (manifest : Manifest) (s : S) (log : list event) :
  DataGroupList manifest !! FGuid_toString (part_Guid chunk) = None ->
  exists e, FileChunkPartCtor.new chunk manifest s log = (Throw e, s, log).
Proof.
  intros Hnone. unfold FileChunkPartCtor.new. rewrite Hnone.
  unfold bind, ret, throw, lift_res.
  repeat match goal with
         | |- context [match ?o with Some _ => _ | None => _ end] => destruct o
         | |- context [match ?r with Ok _ => _ | Throw _ => _ end] => destruct r
         | |- context [if ?b then _ else _] => destruct b
         end;
    eexists; reflexivity.
Qed.
End Constructor.

(** * The further properties on concrete containers *)

Section MoreConcrete.
Import Demo.
Import DemoMore.
Import Byte.

Lemma accepted_header_is_read_at_fixed_offsets_witness :
  FChunkHeader.Version header_v3_good
  = le_to_Z (slice_at (FArchive_new container_v3_good) 4 4)
  /\ FChunkHeader.SHAHash header_v3_good
     = Some (slice_at (FArchive_new container_v3_good) 41 20)
  /\ FChunkHeader.DataSizeUncompressed header_v3_good
     = le_to_Z (slice_at (FArchive_new container_v3_good) 62 4).
Proof.
  destruct (accepted_header_is_read_at_fixed_offsets (H := env no_net) false
              (FArchive_new container_v3_good) [] header_v3_good archive_v3_good []
              eq_refl)
    as (_ & Hv & _ & _ & _ & _ & _ & Hsha & Hu).
  split; [exact Hv|]. split.
  - apply Hsha; [reflexivity|]. vm_compute. discriminate.
  - apply Hu. vm_compute. discriminate.
Defined.

Lemma rejected_decode_leaves_cursor_where_reading_stopped_witness :
  Z.of_N (ar_offset (payload_archive false container_bad_magic))
  = Z.of_N (ar_offset (FArchive_new container_bad_magic)) + 41.
Proof.
  destruct (rejected_decode_leaves_cursor_where_reading_stopped (H := env no_net) false
              (FArchive_new container_bad_magic) []
              (FChunkHeader.zeroed (H := env no_net))
              (payload_archive false container_bad_magic) [] eq_refl)
    as (_ & _ & H41 & _).
  apply H41.
  - vm_compute. discriminate.
  - left. vm_compute. discriminate.
Defined.

Lemma older_versions_keep_the_defaults_witness :
  (FChunkHeader.HashType header_v1 = EChunkHashFlags.RollingPoly64
   /\ FChunkHeader.SHAHash header_v1 = None)
  /\ FChunkHeader.DataSizeUncompressed header_v1 = 1024 * 1024.
Proof.
  destruct (older_versions_keep_the_defaults (H := env no_net) false
              (FArchive_new container_v1) [] header_v1 archive_v1_payload [] eq_refl)
    as (H2 & H3).
  split; [apply H2|apply H3]; vm_compute; reflexivity.
Defined.

Lemma every_version_number_is_accepted_witness :
  exists h ar',
    FChunkHeader.new (H := env no_net) false (FArchive_new container_version_9) []
    = (Ok (h, true), ar', [])
    /\ FChunkHeader.Version h = le_to_Z (slice_at (FArchive_new container_version_9) 4 4).
Proof.
  apply (every_version_number_is_accepted (H := env no_net) false
           (FArchive_new container_version_9) []).
  - vm_compute. reflexivity.
  - vm_compute. discriminate.
Defined.

Lemma load_succeeds_iff_every_named_check_passes_witness :
  result_of (FChunkHeader.load (H := env no_net) header_v3_bad_rolling false
               archive_v3_bad_rolling [])
  = Ok (HashCheckFailed, None)
  /\ state_of (FChunkHeader.load (H := env no_net) header_v3_bad_rolling false
                 archive_v3_bad_rolling [])
     = advance archive_v3_bad_rolling 3.
Proof.
  apply (load_succeeds_iff_every_named_check_passes (H := env no_net)
           header_v3_bad_rolling archive_v3_bad_rolling [] [x01; x02; x03]
           (advance archive_v3_bad_rolling 3) [EvArchiveRead 3]).
  - exact decoded_header_v3_bad_rolling.
  - reflexivity.
Defined.

Lemma unknown_hash_type_loads_unverified_witness :
  FChunkHeader.HashType header_unknown_flag = 4
  /\ FChunkHeader.load (H := env no_net) header_unknown_flag false
       archive_unknown_flag []
     = (Ok (Success, Some [x01; x02; x03]), advance archive_unknown_flag 3,
        [EvArchiveRead 3]).
Proof.
  split; [reflexivity|].
  apply (unknown_hash_type_loads_unverified (H := env no_net) header_unknown_flag
           archive_unknown_flag [] [x01; x02; x03] (advance archive_unknown_flag 3)
           [EvArchiveRead 3]); reflexivity.
Defined.

Lemma failed_decompression_witness :
  FChunkHeader.load (H := env no_net) header_not_deflate false archive_not_deflate []
  = (Throw "Error: incorrect header check", advance archive_not_deflate 3,
     [EvArchiveRead 3; EvInflate [x01; x02; x03]])
  /\ FChunkHeader.load (H := env no_net) header_short_inflate false
       archive_short_inflate []
     = (Ok (DecompressFailure, None), advance archive_short_inflate 4,
        [EvArchiveRead 4; EvInflate [x78; x01; x02; x03]]).
Proof.
  split.
  - apply (failed_decompression (H := env no_net) header_not_deflate false
             archive_not_deflate [] guid1).
    + reflexivity.
    + reflexivity.
    + right. vm_compute. discriminate.
    + split; vm_compute; discriminate.
    + reflexivity.
    + reflexivity.
    + reflexivity.
  - apply (failed_decompression (H := env no_net) header_short_inflate false
             archive_short_inflate [] guid1) with (data := [x01; x02; x03]).
    + reflexivity.
    + reflexivity.
    + right. vm_compute. discriminate.
    + split; vm_compute; discriminate.
    + reflexivity.
    + reflexivity.
    + reflexivity.
    + vm_compute. discriminate.
Defined.

Lemma payload_is_taken_at_header_size_witness :
  inflateSync (Env := env no_net)
    (slice_at (FArchive_new container_v3_compressed)
       (FChunkHeader.HeaderSize header_v3_compressed)
       (FChunkHeader.DataSizeCompressed header_v3_compressed))
  = Some [x01; x02; x03].
Proof.
  apply (payload_is_taken_at_header_size (H := env no_net) false
           (FArchive_new container_v3_compressed) [] header_v3_compressed
           archive_v3_compressed [] false [x01; x02; x03]
           (advance archive_v3_compressed 4)
           [EvArchiveRead 4; EvInflate [x78; x01; x02; x03];
            EvRollingHash [x01; x02; x03]; EvSha1 [x01; x02; x03]]);
    reflexivity.
Defined.

Lemma header_size_past_the_end_witness :
  exists status,
    FChunkHeader.load (H := env no_net) header_long_header false archive_long_header []
    = (Ok (status, None), archive_long_header, [])
    /\ (status = CorruptHeader \/ status = MissingHashInfo
        \/ status = IncorrectFileSize).
Proof.
  apply (header_size_past_the_end (H := env no_net) false
           (FArchive_new container_long_header) [] header_long_header
           archive_long_header [] false).
  - reflexivity.
  - vm_compute. reflexivity.
Defined.


Lemma cache_hit_is_read_only_and_offline_witness :
  state_of (FileChunkPart.loadData (H := env net_v1) (part false (Some "E") 0 3)
              cached_fs [])
  = cached_fs
  /\ filter is_request_event
       (log_of (FileChunkPart.loadData (H := env net_v1) (part false (Some "E") 0 3)
                  cached_fs []))
     = filter is_request_event []
  /\ filter is_write_event
       (log_of (FileChunkPart.loadData (H := env net_v1) (part false (Some "E") 0 3)
                  cached_fs []))
     = filter is_write_event [].
Proof.
  apply (cache_hit_is_read_only_and_offline (H := env net_v1)
           (part false (Some "E") 0 3) cached_fs []).
  vm_compute. reflexivity.
Defined.

Lemma missing_base_uri_is_reported_before_any_request_witness :
  FileChunkPart.loadData (H := env net_v1) (part_with (options_nothing false) 0 3)
    empty_fs []
  = (Throw "'<ManifestOptions>.chunkBaseUri' can not be empty for downloading chunks",
     empty_fs, [])
  /\ FileChunkPart.loadData (H := env net_v1) (part_with (options_cache_only false) 0 3)
       empty_fs []
     = (Throw "'<ManifestOptions>.chunkBaseUri' can not be empty for downloading chunks",
        empty_fs, [EvExists cache_path]).
Proof.
  split.
  - apply (missing_base_uri_is_reported_before_any_request (H := env net_v1)
             (part_with (options_nothing false) 0 3) empty_fs []); reflexivity.
  - apply (missing_base_uri_is_reported_before_any_request (H := env net_v1)
             (part_with (options_cache_only false) 0 3) empty_fs []);
      vm_compute; reflexivity.
Defined.

Lemma non_200_status_is_an_error_witness :
  FileChunkPart.loadData (H := env net_404) (part false (Some "E") 0 3) empty_fs []
  = (Throw "Failed to download '6_G1.chunk': Request failed with status '404'",
     empty_fs, [EvExists cache_path; EvRequest "https://cdn/07/6_G1.chunk"]).
Proof.
  apply (non_200_status_is_an_error (H := env net_404) (part false (Some "E") 0 3)
           empty_fs [] "https://cdn" 404 []).
  - vm_compute. reflexivity.
  - reflexivity.
  - reflexivity.
  - discriminate.
Defined.

Lemma response_without_magic_is_an_error_witness :
  FileChunkPart.loadData (H := env net_not_a_chunk) (part false (Some "E") 0 3)
    empty_fs []
  = (Throw "Chunk '6_G1.chunk' is invalid: Header magic mismatch (0x3020100 != 0xB1FE3AA2)",
     empty_fs, [EvExists cache_path; EvRequest "https://cdn/07/6_G1.chunk"]).
Proof.
  apply (response_without_magic_is_an_error (H := env net_not_a_chunk)
           (part false (Some "E") 0 3) empty_fs [] "https://cdn"
           [x00; x01; x02; x03; x04]).
  - vm_compute. reflexivity.
  - reflexivity.
  - reflexivity.
  - vm_compute. discriminate.
  - vm_compute. discriminate.
Defined.

Lemma load_failure_is_reported_by_name_witness :
  FileChunkPart.loadData (H := env net_bad_rolling) (part false (Some "E") 0 3)
    empty_fs []
  = (Throw "Chunk '6_G1.chunk' is invalid: Load result 'EChunkLoadResult::HashCheckFailed'",
     empty_fs,
     [EvExists cache_path; EvRequest "https://cdn/07/6_G1.chunk";
      EvArchiveRead 3; EvRollingHash [x01; x02; x03]]).
Proof.
  apply (load_failure_is_reported_by_name (H := env net_bad_rolling)
           (part false (Some "E") 0 3) empty_fs [] "https://cdn"
           container_v3_bad_rolling header_v3_bad_rolling true
           archive_v3_bad_rolling
           [EvExists cache_path; EvRequest "https://cdn/07/6_G1.chunk"]
           HashCheckFailed None (advance archive_v3_bad_rolling 3)
           [EvExists cache_path; EvRequest "https://cdn/07/6_G1.chunk";
            EvArchiveRead 3; EvRollingHash [x01; x02; x03]]).
  - vm_compute. reflexivity.
  - reflexivity.
  - reflexivity.
  - vm_compute. discriminate.
  - vm_compute. reflexivity.
  - vm_compute. reflexivity.
  - vm_compute. reflexivity.
  - discriminate.
Defined.

Lemma rejected_header_is_reported_as_CorruptHeader_witness :
  FileChunkPart.loadData (H := env net_truncated) (part false (Some "E") 0 3)
    empty_fs []
  = (Throw "Chunk '6_G1.chunk' is invalid: Load result 'EChunkLoadResult::CorruptHeader'",
     empty_fs, [EvExists cache_path; EvRequest "https://cdn/07/6_G1.chunk"]).
Proof.
  apply (rejected_header_is_reported_as_CorruptHeader (H := env net_truncated)
           (part false (Some "E") 0 3) empty_fs [] "https://cdn"
           (take 20 container_v1) (FChunkHeader.zeroed (H := env net_truncated))
           (FArchive_new (take 20 container_v1))
           [EvExists cache_path; EvRequest "https://cdn/07/6_G1.chunk"]).
  - vm_compute. reflexivity.
  - reflexivity.
  - reflexivity.
  - vm_compute. discriminate.
  - vm_compute. reflexivity.
  - vm_compute. reflexivity.
Defined.


Lemma lazy_fetch_computes_no_hash_witness :
  filter is_hash_event
    (log_of (FileChunkPart.loadData (H := env net_v1) (part true None 0 3) empty_fs []))
  = filter is_hash_event [].
Proof.
  apply (lazy_fetch_computes_no_hash (H := env net_v1) (part true None 0 3) empty_fs []).
  reflexivity.
Defined.

Lemma data_group_is_the_last_two_digits_witness :
  FileChunkPartCtor.data_group 7 = "07"
  /\ FileChunkPartCtor.data_group 107 = "07".
Proof.
  split.
  - apply (proj2 (data_group_is_the_last_two_digits 7)). lia.
  - apply (proj2 (data_group_is_the_last_two_digits 107)). lia.
Defined.

Lemma missing_data_group_makes_the_constructor_throw_witness :
  exists e,
    FileChunkPartCtor.new (H := env no_net) chunk_part (manifest false no_groups) tt []
    = (Throw e, tt, []).
Proof.
  apply (missing_data_group_makes_the_constructor_throw (H := env no_net)
           chunk_part (manifest false no_groups) tt []).
  vm_compute. reflexivity.
Defined.
End MoreConcrete.
